(** * YouTube Production Agent: the page component and the blueprint engine

    A shallow embedding of [src/app/page.tsx] (keyword splitting, the form
    state, the clipboard helper and the plain-text export) together with a
    model of the blueprint synthesis engine that the page imports from
    [@/lib/generators].

    JavaScript strings are sequences of UTF-16 code units; they are modelled
    as [list N].  JavaScript numbers that the code only ever treats as
    integers are modelled as [Z]. *)

From Stdlib Require Import ZArith NArith Lia Ascii String DecimalPos.
From stdpp Require Import base numbers list gmap.

Set Default Proof Using "Type".

(** ** JavaScript strings *)

Module Js.

Definition codeunit := N.
Definition jsstring := list N.

(** An ASCII source literal as a sequence of code units. *)
Definition lit (s : string) : jsstring :=
  map N_of_ascii (list_ascii_of_string s).

Definition COMMA : codeunit := 44%N.
Definition LF : codeunit := 10%N.
Definition EM_DASH : codeunit := 0x2014%N.

(** [Array.prototype.join]: the elements separated by [sep]; the empty array
    gives the empty string. *)
Fixpoint join (sep : jsstring) (xs : list jsstring) : jsstring :=
  match xs with
  | [] => []
  | x :: rest =>
      match rest with
      | [] => x
      | _ :: _ => x ++ sep ++ join sep rest
      end
  end.

(** ECMAScript WhiteSpace and LineTerminator code points, the set that
    [String.prototype.trim] strips.  All of them lie in the basic
    multilingual plane, so the test is on one code unit. *)
Definition isWhiteSpace (c : codeunit) : bool :=
  ((c =? 0x0009) || (c =? 0x000A) || (c =? 0x000B) || (c =? 0x000C)
   || (c =? 0x000D) || (c =? 0x0020) || (c =? 0x00A0) || (c =? 0x1680)
   || ((0x2000 <=? c) && (c <=? 0x200A))
   || (c =? 0x2028) || (c =? 0x2029) || (c =? 0x202F) || (c =? 0x205F)
   || (c =? 0x3000) || (c =? 0xFEFF))%N.

Fixpoint trimStart (s : jsstring) : jsstring :=
  match s with
  | [] => []
  | c :: rest => if isWhiteSpace c then trimStart rest else s
  end.

Definition trimEnd (s : jsstring) : jsstring := rev (trimStart (rev s)).

Definition trim (s : jsstring) : jsstring := trimEnd (trimStart s).

(** [String.prototype.split] with a separator that matches exactly one code
    unit satisfying [isSep] (a character class, no capture groups, no limit).
    The empty input gives one empty piece. *)
Fixpoint split (isSep : codeunit -> bool) (s : jsstring) : list jsstring :=
  match s with
  | [] => [[]]
  | c :: rest =>
      if isSep c then [] :: split isSep rest
      else match split isSep rest with
           | [] => [[c]]
           | p :: ps => (c :: p) :: ps
           end
  end.

(** [ToBoolean] on a string: only the empty string is falsy. *)
Definition truthyString (s : jsstring) : bool :=
  match s with [] => false | _ :: _ => true end.

(** Decimal digits of a [Decimal.uint], most significant first. *)
Fixpoint digits (d : Decimal.uint) : jsstring :=
  match d with
  | Decimal.Nil => []
  | Decimal.D0 d => 48%N :: digits d
  | Decimal.D1 d => 49%N :: digits d
  | Decimal.D2 d => 50%N :: digits d
  | Decimal.D3 d => 51%N :: digits d
  | Decimal.D4 d => 52%N :: digits d
  | Decimal.D5 d => 53%N :: digits d
  | Decimal.D6 d => 54%N :: digits d
  | Decimal.D7 d => 55%N :: digits d
  | Decimal.D8 d => 56%N :: digits d
  | Decimal.D9 d => 57%N :: digits d
  end.

(** [Number.prototype.toString] (as a template literal applies it) on an
    integral number: decimal digits, with a leading minus sign below zero.
    JavaScript switches to exponent notation from 10^21 on; minutes, hours
    and section numbers stay far below. *)
Definition numberToString (n : Z) : jsstring :=
  match Z.to_int n with
  | Decimal.Pos d => digits d
  | Decimal.Neg d => 45%N :: digits d
  end.

(** [s] occurs in [t] as a contiguous substring. *)
Definition infix (s t : jsstring) : Prop :=
  exists pre post, t = pre ++ s ++ post.

(** The strings [ks] occur in [t] one after the other, without overlap. *)
Inductive occursInOrder : list jsstring -> jsstring -> Prop :=
  | occurs_nil t : occursInOrder [] t
  | occurs_cons k ks pre post :
      occursInOrder ks post -> occursInOrder (k :: ks) (pre ++ k ++ post).

(** Executable substring test. *)
Fixpoint startsWith (p t : jsstring) : bool :=
  match p, t with
  | [], _ => true
  | _ :: _, [] => false
  | a :: p', b :: t' => (a =? b)%N && startsWith p' t'
  end.

Fixpoint includes (p t : jsstring) : bool :=
  startsWith p t ||
  match t with
  | [] => false
  | _ :: t' => includes p t'
  end.

(** Reading an unsigned decimal numeral. *)
Definition digitValue (c : codeunit) : option Z :=
  if ((48 <=? c) && (c <=? 57))%N then Some (Z.of_N c - 48)%Z else None.

Fixpoint parseDigits (acc : Z) (s : jsstring) : option Z :=
  match s with
  | [] => Some acc
  | c :: rest =>
      match digitValue c with
      | Some d => parseDigits (10 * acc + d)%Z rest
      | None => None
      end
  end.

Definition parseDecimal (s : jsstring) : option Z :=
  match s with
  | [] => None
  | _ :: _ => parseDigits 0 s
  end.

End Js.

Import Js.

(** ** Keyword splitting ([splitKeywords], page.tsx lines 35-40) *)

Module Keywords.

(** The separator class of the regular expression [/[,\n]/]. *)
Definition isSeparator (c : codeunit) : bool :=
  ((c =? COMMA) || (c =? LF))%N.

Definition splitKeywords (input : jsstring) : list jsstring :=
  List.filter truthyString (map trim (split isSeparator input)).

(** The normalisation the specification words for the keyword list: split on
    comma or newline, trim, drop the entries that became empty, and remove
    duplicates keeping the first occurrence. *)
Fixpoint dedupFirstSeen (seen : list jsstring) (l : list jsstring)
  : list jsstring :=
  match l with
  | [] => []
  | x :: rest =>
      if bool_decide (x ∈ seen) then dedupFirstSeen seen rest
      else x :: dedupFirstSeen (x :: seen) rest
  end.

Definition normalizeKeywords_spec (raw : jsstring) : list jsstring :=
  dedupFirstSeen []
    (List.filter truthyString (map trim (split isSeparator raw))).

End Keywords.

(** ** The blueprint aggregate

    [src/app/page.tsx] imports the type [VideoBlueprint] from [@/lib/types],
    which is not part of the sources at hand.  The records below carry the
    fields section 3 of the specification lists, under the names the page
    component reads them by.  Every text field is a [jsstring]; the numeric
    fields are integral. *)

Module TrendSignal.
Record t := mk { headline : jsstring; rationale : jsstring }.
End TrendSignal.

Module NicheAnalysis.
Record t := mk {
  positioningStatement : jsstring;
  trendSignals : list TrendSignal.t;
  audienceQuestions : list jsstring;
  competitorWatch : list jsstring
}.
End NicheAnalysis.

Module OutlineSection.
Record t := mk {
  title : jsstring;
  purpose : jsstring;
  talkingPoints : list jsstring;
  estimatedDuration : Z
}.
End OutlineSection.

Module ScriptSection.
Record t := mk {
  title : jsstring;
  voiceover : jsstring;
  visualPrompts : list jsstring;
  engagementHook : jsstring
}.
End ScriptSection.

Module ChapterMarker.
Record t := mk { timestamp : jsstring; label : jsstring }.
End ChapterMarker.

Module SeoPackage.
Record t := mk {
  videoTitle : jsstring;
  description : jsstring;
  keywordTags : list jsstring;
  hashtags : list jsstring;
  chapterMarkers : list ChapterMarker.t
}.
End SeoPackage.

Module ChecklistTask.
Record t := mk {
  id : jsstring;
  title : jsstring;
  description : jsstring;
  phase : jsstring;
  owner : jsstring;
  dueAfterHours : Z
}.
End ChecklistTask.

Module AssetRequest.
Record t := mk { label : jsstring; notes : jsstring }.
End AssetRequest.

Module TimelineDays.
Record t := mk { preProduction : Z; production : Z; postProduction : Z }.
End TimelineDays.

Module ProductionPlan.
Record t := mk {
  timelineDays : TimelineDays.t;
  checklist : list ChecklistTask.t;
  assetRequests : list AssetRequest.t
}.
End ProductionPlan.

Module UploadPackage.
Record t := mk {
  optimizedTitle : jsstring;
  optimizedDescription : jsstring;
  uploadTags : list jsstring;
  thumbnailConcept : jsstring;
  endScreenIdeas : list jsstring;
  playlistTargets : list jsstring
}.
End UploadPackage.

Module PublishingPlan.
Record t := mk {
  bestPublishWindows : list jsstring;
  communityPrompts : list jsstring;
  crossPromotion : list jsstring
}.
End PublishingPlan.

Module VideoBlueprint.
Record t := mk {
  topic : jsstring;
  videoLengthMinutes : Z;
  targetAudience : jsstring;
  tone : jsstring;
  narrativeAngle : jsstring;
  primaryKeywords : list jsstring;
  callToAction : jsstring;
  nicheAnalysis : NicheAnalysis.t;
  outline : list OutlineSection.t;
  script : list ScriptSection.t;
  seo : SeoPackage.t;
  production : ProductionPlan.t;
  upload : UploadPackage.t;
  publishing : PublishingPlan.t
}.
End VideoBlueprint.

(** The argument object of [generateVideoBlueprint], as [handleGenerate]
    builds it.  The type of [minutes] is left open: the page passes whatever
    JavaScript number the form holds. *)
Module VideoBrief.
Record t {number : Type} := mk {
  topic : jsstring;
  minutes : number;
  targetAudience : jsstring;
  tone : jsstring;
  keywords : list jsstring;
  callToAction : jsstring
}.
Arguments t : clear implicits.
End VideoBrief.

(** ** The page component ([Page], page.tsx lines 58-497) *)

Module Page.

Section WithNumbers.

(** JavaScript numbers are kept abstract here: [StringToNumber] is the
    ECMAScript conversion that [Number(...)] applies to a string, and
    [ofZ] injects the integer literals of the source. *)
Variable number : Type.
Variable StringToNumber : jsstring -> number.
Variable ofZ : Z -> number.
Variable numberIsTruthy : number -> bool.

(** The values that [event.target.value || 9] ranges over. *)
Inductive value :=
  | VString (s : jsstring)
  | VNumber (n : number).

Definition ToBoolean (v : value) : bool :=
  match v with
  | VString s => truthyString s
  | VNumber n => numberIsTruthy n
  end.

(** [a || b]: [a] when it is truthy, [b] otherwise. *)
Definition logicalOr (a b : value) : value :=
  if ToBoolean a then a else b.

(** [Number(v)]. *)
Definition Number (v : value) : number :=
  match v with
  | VString s => StringToNumber s
  | VNumber n => n
  end.

Record FormState := mkForm {
  topic : jsstring;
  minutes : number;
  audience : jsstring;
  tone : jsstring;
  callToAction : jsstring;
  keywords : jsstring
}.

Definition DEFAULT_FORM : FormState := {|
  topic := lit "AI-assisted design systems";
  minutes := ofZ 9;
  audience := lit "design directors at product-led companies";
  tone := lit "Authoritative";
  callToAction :=
    lit "Download the design ops blueprint and align your next sprint in under 30 minutes.";
  keywords := lit "design automation, ai design workflow, figma systems"
|}.

Definition TONE_OPTIONS : list jsstring :=
  [lit "Authoritative"; lit "Educational"; lit "Inspirational";
   lit "Entertaining"; lit "Analytical"].

(** The [onChange] handler of the minutes input (lines 126-131): the state
    updater applied to the previous form. *)
Definition onMinutesChange (targetValue : jsstring) (prev : FormState)
  : FormState :=
  {| topic := topic prev;
     minutes := Number (logicalOr (VString targetValue) (VNumber (ofZ 9)));
     audience := audience prev;
     tone := tone prev;
     callToAction := callToAction prev;
     keywords := keywords prev |}.

(** The [onChange] handler of the keywords text area (lines 181-183). *)
Definition onKeywordsChange (targetValue : jsstring) (prev : FormState)
  : FormState :=
  {| topic := topic prev;
     minutes := minutes prev;
     audience := audience prev;
     tone := tone prev;
     callToAction := callToAction prev;
     keywords := targetValue |}.

(** The object literal [handleGenerate] hands to the engine (lines 75-82). *)
Definition generateArgument (form : FormState) : VideoBrief.t number :=
  {| VideoBrief.topic := topic form;
     VideoBrief.minutes := minutes form;
     VideoBrief.targetAudience := audience form;
     VideoBrief.tone := tone form;
     VideoBrief.keywords := Keywords.splitKeywords (keywords form);
     VideoBrief.callToAction := callToAction form |}.

Record PageState := mkPage {
  form : FormState;
  blueprint : option VideoBlueprint.t;
  isThinking : bool
}.

Definition initialState : PageState :=
  {| form := DEFAULT_FORM; blueprint := None; isThinking := false |}.

(** [handleGenerate] (lines 71-87), with the imported engine as a parameter:
    the thinking flag is raised, the engine runs on [generateArgument] of the
    current form, the plan is stored and the flag is lowered again. *)
Definition handleGenerate
    (generateVideoBlueprint : VideoBrief.t number -> VideoBlueprint.t)
    (st : PageState) : PageState :=
  let thinking := {| form := form st; blueprint := blueprint st;
                     isThinking := true |} in
  let plan := generateVideoBlueprint (generateArgument (form thinking)) in
  {| form := form thinking; blueprint := Some plan; isThinking := false |}.

End WithNumbers.

(** [outlineDurationTotal] (lines 63-69): zero without a blueprint, the
    left-to-right sum of the section durations otherwise. *)
Definition outlineDurationTotal (blueprint : option VideoBlueprint.t) : Z :=
  match blueprint with
  | None => 0
  | Some bp =>
      fold_left (fun acc section =>
                   (acc + OutlineSection.estimatedDuration section)%Z)
                (VideoBlueprint.outline bp) 0%Z
  end.

End Page.

(** ** The plain-text export ([formatBlueprintText], page.tsx lines 499-565) *)

Module TextExport.

Definition NL : jsstring := [LF].

(** One entry of [blueprint.script.map(...)] (lines 502-506); [index] is the
    zero-based position of the section. *)
Definition scriptSection (index : nat) (section : ScriptSection.t) : jsstring :=
  (lit "Section " ++ numberToString (Z.of_nat index + 1) ++ lit ": "
     ++ ScriptSection.title section ++ NL)
  ++ (ScriptSection.voiceover section
        ++ NL ++ NL ++ lit "Visual Prompts:" ++ NL ++ lit "- "
        ++ join (NL ++ lit "- ") (ScriptSection.visualPrompts section)
        ++ NL ++ lit "Engagement: " ++ ScriptSection.engagementHook section
        ++ NL).

Definition scriptSections (blueprint : VideoBlueprint.t) : jsstring :=
  join NL (imap scriptSection (VideoBlueprint.script blueprint)).

Definition trendSignalLine (signal : TrendSignal.t) : jsstring :=
  lit "- " ++ TrendSignal.headline signal ++ lit ": "
    ++ TrendSignal.rationale signal.

Definition outlineLine (section : OutlineSection.t) : jsstring :=
  lit "- " ++ OutlineSection.title section ++ lit " ("
    ++ numberToString (OutlineSection.estimatedDuration section)
    ++ lit " min): " ++ OutlineSection.purpose section.

Definition checklistLine (task : ChecklistTask.t) : jsstring :=
  lit "- [ ] " ++ ChecklistTask.title task ++ lit " ("
    ++ ChecklistTask.phase task ++ lit ", owner "
    ++ ChecklistTask.owner task ++ lit ")".

Definition bulletLine (item : jsstring) : jsstring := lit "- " ++ item.

(** The array literal of lines 510-564, before it is joined. *)
Definition formatBlueprintLines (blueprint : VideoBlueprint.t)
  : list jsstring :=
  let niche := VideoBlueprint.nicheAnalysis blueprint in
  let seo := VideoBlueprint.seo blueprint in
  let upload := VideoBlueprint.upload blueprint in
  let publishing := VideoBlueprint.publishing blueprint in
  [ lit "YouTube Blueprint " ++ [EM_DASH] ++ lit " "
      ++ VideoBlueprint.topic blueprint;
    [];
    lit "Audience: " ++ VideoBlueprint.targetAudience blueprint;
    lit "Tone: " ++ VideoBlueprint.tone blueprint;
    lit "Length: "
      ++ numberToString (VideoBlueprint.videoLengthMinutes blueprint)
      ++ lit " minutes";
    lit "Narrative Angle: " ++ VideoBlueprint.narrativeAngle blueprint;
    [];
    lit "Niche Positioning:";
    NicheAnalysis.positioningStatement niche;
    [];
    lit "Trend Signals:" ]
  ++ map trendSignalLine (NicheAnalysis.trendSignals niche)
  ++ [ []; lit "Outline:" ]
  ++ map outlineLine (VideoBlueprint.outline blueprint)
  ++ [ [];
       lit "Script:";
       scriptSections blueprint;
       [];
       lit "SEO Title:";
       SeoPackage.videoTitle seo;
       [];
       lit "SEO Description:";
       SeoPackage.description seo;
       [];
       lit "Tags:";
       join (lit ", ") (SeoPackage.keywordTags seo);
       [];
       lit "Production Checklist:" ]
  ++ map checklistLine
       (ProductionPlan.checklist (VideoBlueprint.production blueprint))
  ++ [ [];
       lit "Upload Package:";
       lit "Title: " ++ UploadPackage.optimizedTitle upload;
       lit "Thumbnail Concept: " ++ UploadPackage.thumbnailConcept upload;
       lit "Call To Action: " ++ VideoBlueprint.callToAction blueprint;
       [];
       lit "Publishing Plan:" ]
  ++ map bulletLine (PublishingPlan.bestPublishWindows publishing)
  ++ [ []; lit "Community Prompts:" ]
  ++ map bulletLine (PublishingPlan.communityPrompts publishing)
  ++ [ []; lit "Cross Promotion:" ]
  ++ map bulletLine (PublishingPlan.crossPromotion publishing).

Definition formatBlueprintText (blueprint : VideoBlueprint.t) : jsstring :=
  join NL (formatBlueprintLines blueprint).

(** The first line of every section of the export, in the order the
    specification lists the sections. *)
Definition sectionHeadings (blueprint : VideoBlueprint.t) : list jsstring :=
  [ lit "YouTube Blueprint " ++ [EM_DASH] ++ lit " "
      ++ VideoBlueprint.topic blueprint;
    lit "Audience: " ++ VideoBlueprint.targetAudience blueprint;
    lit "Tone: " ++ VideoBlueprint.tone blueprint;
    lit "Length: "
      ++ numberToString (VideoBlueprint.videoLengthMinutes blueprint)
      ++ lit " minutes";
    lit "Narrative Angle: " ++ VideoBlueprint.narrativeAngle blueprint;
    lit "Niche Positioning:";
    lit "Trend Signals:";
    lit "Outline:";
    lit "Script:";
    lit "SEO Title:";
    lit "SEO Description:";
    lit "Tags:";
    lit "Production Checklist:";
    lit "Upload Package:";
    lit "Publishing Plan:" ].

(** What the export reads of a blueprint: the fields that reach the text,
    with the list items cut down to the fields the line templates use. *)
Record ExportedView := mkView {
  v_topic : jsstring;
  v_targetAudience : jsstring;
  v_tone : jsstring;
  v_videoLengthMinutes : Z;
  v_narrativeAngle : jsstring;
  v_positioningStatement : jsstring;
  v_trendSignals : list (jsstring * jsstring);
  v_outline : list (jsstring * Z * jsstring);
  v_script : list ScriptSection.t;
  v_videoTitle : jsstring;
  v_description : jsstring;
  v_keywordTags : list jsstring;
  v_checklist : list (jsstring * jsstring * jsstring);
  v_optimizedTitle : jsstring;
  v_thumbnailConcept : jsstring;
  v_callToAction : jsstring;
  v_bestPublishWindows : list jsstring;
  v_communityPrompts : list jsstring;
  v_crossPromotion : list jsstring
}.

Definition exportedView (blueprint : VideoBlueprint.t) : ExportedView :=
  let niche := VideoBlueprint.nicheAnalysis blueprint in
  let seo := VideoBlueprint.seo blueprint in
  let upload := VideoBlueprint.upload blueprint in
  let publishing := VideoBlueprint.publishing blueprint in
  {| v_topic := VideoBlueprint.topic blueprint;
     v_targetAudience := VideoBlueprint.targetAudience blueprint;
     v_tone := VideoBlueprint.tone blueprint;
     v_videoLengthMinutes := VideoBlueprint.videoLengthMinutes blueprint;
     v_narrativeAngle := VideoBlueprint.narrativeAngle blueprint;
     v_positioningStatement := NicheAnalysis.positioningStatement niche;
     v_trendSignals :=
       map (fun s => (TrendSignal.headline s, TrendSignal.rationale s))
           (NicheAnalysis.trendSignals niche);
     v_outline :=
       map (fun s => (OutlineSection.title s,
                      OutlineSection.estimatedDuration s,
                      OutlineSection.purpose s))
           (VideoBlueprint.outline blueprint);
     v_script := VideoBlueprint.script blueprint;
     v_videoTitle := SeoPackage.videoTitle seo;
     v_description := SeoPackage.description seo;
     v_keywordTags := SeoPackage.keywordTags seo;
     v_checklist :=
       map (fun t => (ChecklistTask.title t, ChecklistTask.phase t,
                      ChecklistTask.owner t))
           (ProductionPlan.checklist (VideoBlueprint.production blueprint));
     v_optimizedTitle := UploadPackage.optimizedTitle upload;
     v_thumbnailConcept := UploadPackage.thumbnailConcept upload;
     v_callToAction := VideoBlueprint.callToAction blueprint;
     v_bestPublishWindows := PublishingPlan.bestPublishWindows publishing;
     v_communityPrompts := PublishingPlan.communityPrompts publishing;
     v_crossPromotion := PublishingPlan.crossPromotion publishing |}.

(** The texts of the blueprint fields that [formatBlueprintText] reads
    (numbers as the template literals print them). *)
Definition exportedFieldTexts (blueprint : VideoBlueprint.t)
  : list jsstring :=
  let niche := VideoBlueprint.nicheAnalysis blueprint in
  let seo := VideoBlueprint.seo blueprint in
  let upload := VideoBlueprint.upload blueprint in
  let publishing := VideoBlueprint.publishing blueprint in
  [ VideoBlueprint.topic blueprint;
    VideoBlueprint.targetAudience blueprint;
    VideoBlueprint.tone blueprint;
    numberToString (VideoBlueprint.videoLengthMinutes blueprint);
    VideoBlueprint.narrativeAngle blueprint;
    VideoBlueprint.callToAction blueprint;
    NicheAnalysis.positioningStatement niche ]
  ++ flat_map (fun s => [TrendSignal.headline s; TrendSignal.rationale s])
       (NicheAnalysis.trendSignals niche)
  ++ flat_map
       (fun s => [OutlineSection.title s;
                  numberToString (OutlineSection.estimatedDuration s);
                  OutlineSection.purpose s])
       (VideoBlueprint.outline blueprint)
  ++ flat_map
       (fun s => ScriptSection.title s :: ScriptSection.voiceover s
                 :: ScriptSection.engagementHook s
                 :: ScriptSection.visualPrompts s)
       (VideoBlueprint.script blueprint)
  ++ [ SeoPackage.videoTitle seo; SeoPackage.description seo ]
  ++ SeoPackage.keywordTags seo
  ++ flat_map
       (fun t => [ChecklistTask.title t; ChecklistTask.phase t;
                  ChecklistTask.owner t])
       (ProductionPlan.checklist (VideoBlueprint.production blueprint))
  ++ [ UploadPackage.optimizedTitle upload;
       UploadPackage.thumbnailConcept upload ]
  ++ PublishingPlan.bestPublishWindows publishing
  ++ PublishingPlan.communityPrompts publishing
  ++ PublishingPlan.crossPromotion publishing.

(** The texts of the remaining fields of the aggregate. *)
Definition omittedFieldTexts (blueprint : VideoBlueprint.t)
  : list jsstring :=
  let niche := VideoBlueprint.nicheAnalysis blueprint in
  let seo := VideoBlueprint.seo blueprint in
  let production := VideoBlueprint.production blueprint in
  let days := ProductionPlan.timelineDays production in
  let upload := VideoBlueprint.upload blueprint in
  VideoBlueprint.primaryKeywords blueprint
  ++ NicheAnalysis.audienceQuestions niche
  ++ NicheAnalysis.competitorWatch niche
  ++ flat_map OutlineSection.talkingPoints (VideoBlueprint.outline blueprint)
  ++ SeoPackage.hashtags seo
  ++ flat_map (fun m => [ChapterMarker.timestamp m; ChapterMarker.label m])
       (SeoPackage.chapterMarkers seo)
  ++ [ numberToString (TimelineDays.preProduction days);
       numberToString (TimelineDays.production days);
       numberToString (TimelineDays.postProduction days) ]
  ++ flat_map
       (fun t => [ChecklistTask.id t; ChecklistTask.description t;
                  numberToString (ChecklistTask.dueAfterHours t)])
       (ProductionPlan.checklist production)
  ++ flat_map (fun a => [AssetRequest.label a; AssetRequest.notes a])
       (ProductionPlan.assetRequests production)
  ++ [ UploadPackage.optimizedDescription upload ]
  ++ UploadPackage.uploadTags upload
  ++ UploadPackage.endScreenIdeas upload
  ++ UploadPackage.playlistTargets upload.

(** Every field of the aggregate. *)
Definition allFieldTexts (blueprint : VideoBlueprint.t) : list jsstring :=
  exportedFieldTexts blueprint ++ omittedFieldTexts blueprint.

End TextExport.

(** ** The clipboard helper ([copyToClipboard], page.tsx lines 54-56) *)

Module Clipboard.

Inductive error :=
  | ReferenceError
  | TypeError
  | HostError (message : jsstring).

(** A completion: a normal return or a throw. *)
Inductive completion (A : Type) :=
  | Return (v : A)
  | Throw (e : error).
Arguments Return {A} v.
Arguments Throw {A} e.

(** What [navigator.clipboard.writeText] hands back on a normal return. *)
Inductive promise :=
  | Resolves
  | Rejects (reason : jsstring).

(** What the property [clipboard] of [navigator] holds. *)
Inductive clipboardSlot :=
  | ClipboardUndefined
  | ClipboardNull
  | ClipboardObject (writeText : option (jsstring -> completion promise)).

(** The global environment of the call: the binding [navigator] may be
    missing altogether (outside a browser). *)
Record environment := mkEnv { navigator : option clipboardSlot }.

(** The value of the function: [undefined] or the promise of the write. *)
Inductive result :=
  | Undefined
  | Promise (p : promise).

(** The outcome of one call: its completion, and the texts the call tried to
    write to the clipboard, in order. *)
Definition copyToClipboard (env : environment) (text : jsstring)
  : completion result * list jsstring :=
  match navigator env with
  | None => (Throw ReferenceError, [])
  | Some slot =>
      match slot with
      | ClipboardUndefined | ClipboardNull => (Return Undefined, [])
      | ClipboardObject None => (Throw TypeError, [])
      | ClipboardObject (Some writeText) =>
          match writeText text with
          | Return p => (Return (Promise p), [text])
          | Throw e => (Throw e, [text])
          end
      end
  end.

End Clipboard.

(** ** The blueprint synthesis engine

    [generateVideoBlueprint] lives in [lib/generators.ts] and its heuristics
    table in [lib/data.ts]; neither file is among the sources.  The module
    below follows sections 3 and 4 of the specification.  The wording of the
    generated texts, which the specification leaves open, is a parameter
    ([Phrasing.t]); so is the content of the heuristics table ([Store.t]). *)

Module Archetype.
(** Modelled from the spec: a section archetype of the Outline Allocator
    (section 4.4), with its fixed proportion of the runtime as an integral
    weight. *)
Record t := mk {
  title : jsstring;
  purpose : jsstring;
  weight : positive
}.
End Archetype.

Module Category.
(** Modelled from the spec: one entry of the Category Heuristics Store
    (sections 2 and 3): an identifier, the trigger terms the resolver
    matches, the ordered section archetypes and the category terms that
    feed the keyword tags. *)
Record t := mk {
  identifier : jsstring;
  triggerTerms : list jsstring;
  archetypes : list Archetype.t;
  categoryTerms : list jsstring
}.
End Category.

Module Store.
(** Modelled from the spec: the Category Heuristics Store of the missing
    [lib/data.ts], in declaration order, with its designated fallback
    category. *)
Record t := mk {
  categories : list Category.t;
  fallback : Category.t
}.
End Store.

Module Phrasing.
(** Modelled from the spec: the text templates and fixed lists of sections
    4.1 and 4.3 to 4.9, whose wording the specification does not fix. *)
Record t := mk {
  defaultTopic : jsstring;
  defaultAudience : jsstring;
  defaultCallToAction : jsstring;
  defaultTone : jsstring;
  tagCap : nat;
  narrativeAngle : VideoBrief.t Z -> Category.t -> jsstring;
  nicheAnalysis : VideoBrief.t Z -> Category.t -> NicheAnalysis.t;
  talkingPoints : VideoBrief.t Z -> Category.t -> Archetype.t -> list jsstring;
  voiceover : VideoBrief.t Z -> OutlineSection.t -> jsstring;
  visualPrompts : VideoBrief.t Z -> OutlineSection.t -> list jsstring;
  engagementHook :
    VideoBrief.t Z -> bool -> OutlineSection.t -> jsstring;
  videoTitle : VideoBrief.t Z -> Category.t -> jsstring;
  description : VideoBrief.t Z -> jsstring -> jsstring;
  hashtags : list jsstring -> list jsstring;
  production : VideoBrief.t Z -> ProductionPlan.t;
  upload : VideoBrief.t Z -> Category.t -> UploadPackage.t;
  publishing : VideoBrief.t Z -> Category.t -> PublishingPlan.t
}.
End Phrasing.

Module Engine.

(** *** 4.1 Input Normalizer *)

(** Modelled from the spec: the supported bound of the runtime, section 3
    ("bounded e.g. 5-25"); the minutes input of the page carries the same
    two numbers as [min] and [max] (page.tsx lines 123-124). *)
Definition MIN_MINUTES : Z := 5.

(** Modelled from the spec: the upper end of the supported bound, missing
    with the engine sources like the lower end. *)
Definition MAX_MINUTES : Z := 25.

(** Modelled from the spec: "minutes clamped to the supported bound". *)
Definition clampMinutes (minutes : Z) : Z :=
  Z.max MIN_MINUTES (Z.min MAX_MINUTES minutes).

(** Modelled from the spec: "keywords split on comma/newline, trimmed,
    emptied entries dropped, duplicates removed while preserving first-seen
    order", applied to the phrases of the raw list. *)
Definition normalizeKeywords (raw : list jsstring) : list jsstring :=
  Keywords.dedupFirstSeen []
    (List.filter truthyString
       (map trim (concat (map (split Keywords.isSeparator) raw)))).

(** Modelled from the spec: "defaulted to non-empty placeholders if
    blank". *)
Definition orDefault (placeholder text : jsstring) : jsstring :=
  match trim text with
  | [] => placeholder
  | _ :: _ => text
  end.

(** Modelled from the spec: "tone defaulted to a fixed value if
    absent/unrecognized"; the fixed tone set is [TONE_OPTIONS]. *)
Definition normalizeTone (fixed tone : jsstring) : jsstring :=
  if bool_decide (tone ∈ Page.TONE_OPTIONS) then tone else fixed.

(** Modelled from the spec: the Input Normalizer of section 4.1. *)
Definition normalize (phr : Phrasing.t) (raw : VideoBrief.t Z)
  : VideoBrief.t Z :=
  {| VideoBrief.topic := orDefault (Phrasing.defaultTopic phr)
                           (VideoBrief.topic raw);
     VideoBrief.minutes := clampMinutes (VideoBrief.minutes raw);
     VideoBrief.targetAudience :=
       orDefault (Phrasing.defaultAudience phr)
         (VideoBrief.targetAudience raw);
     VideoBrief.tone :=
       normalizeTone (Phrasing.defaultTone phr) (VideoBrief.tone raw);
     VideoBrief.keywords := normalizeKeywords (VideoBrief.keywords raw);
     VideoBrief.callToAction :=
       orDefault (Phrasing.defaultCallToAction phr)
         (VideoBrief.callToAction raw) |}.

(** *** 4.2 Category Resolver *)

(** Modelled from the spec: "keyword/substring matching against each
    category's trigger terms": a term matches when it occurs in the topic
    or in one of the keywords. *)
Definition termMatches (brief : VideoBrief.t Z) (term : jsstring) : bool :=
  includes term (VideoBrief.topic brief)
  || existsb (includes term) (VideoBrief.keywords brief).

(** Modelled from the spec: the fit of a category is the number of its
    trigger terms that match. *)
Definition score (brief : VideoBrief.t Z) (cat : Category.t) : nat :=
  length (List.filter (termMatches brief) (Category.triggerTerms cat)).

(** Modelled from the spec: the best-scoring category so far wins; a later
    category replaces it only with a strictly higher score ("ties broken
    by declaration order"). *)
Fixpoint bestCategory (brief : VideoBrief.t Z) (best : option Category.t)
    (bestScore : nat) (cats : list Category.t) : option Category.t :=
  match cats with
  | [] => best
  | cat :: rest =>
      if (bestScore <? score brief cat)%nat
      then bestCategory brief (Some cat) (score brief cat) rest
      else bestCategory brief best bestScore rest
  end.

(** Modelled from the spec: the Category Resolver of section 4.2; "no match
    => a designated generic/fallback category". *)
Definition resolveCategory (store : Store.t) (brief : VideoBrief.t Z)
  : Category.t :=
  match bestCategory brief None 0 (Store.categories store) with
  | Some cat => cat
  | None => Store.fallback store
  end.

(** *** 4.4 Outline Allocator *)

(** Modelled from the spec: the sum of a list of minutes or weights. *)
Definition sumZ (l : list Z) : Z := foldr Z.add 0%Z l.

(** Modelled from the spec: position of the first largest remainder,
    scanning from position [i] with the best entry so far at [best]. *)
Fixpoint argmaxFrom (best : nat) (bestValue : Z) (i : nat) (l : list Z)
  : nat :=
  match l with
  | [] => best
  | x :: rest =>
      if (bestValue <? x)%Z then argmaxFrom i x (S i) rest
      else argmaxFrom best bestValue (S i) rest
  end.

(** Modelled from the spec: position of the first largest remainder. *)
Definition argmax (l : list Z) : nat :=
  match l with
  | [] => 0%nat
  | x :: rest => argmaxFrom 0 x 1 rest
  end.

(** Modelled from the spec: the leftover minutes of largest-remainder
    rounding go, one each, to the sections with the largest remainders; a
    section that received its minute leaves the contest. *)
Fixpoint distribute (leftover : nat) (durations remainders : list Z)
  : list Z :=
  match leftover with
  | O => durations
  | S k =>
      let i := argmax remainders in
      distribute k (alter Z.succ i durations) (<[i := (-1)%Z]> remainders)
  end.

(** Modelled from the spec: "weight each archetype by a fixed proportion of
    total runtime, convert to integer minutes via largest-remainder
    rounding". *)
Definition allocate (minutes : Z) (weights : list Z) : list Z :=
  let total := sumZ weights in
  let floors := map (fun w => (minutes * w / total)%Z) weights in
  let remainders := map (fun w => ((minutes * w) mod total)%Z) weights in
  distribute (Z.to_nat (minutes - sumZ floors)) floors remainders.

(** Modelled from the spec: the proportions of the archetypes. *)
Definition weights (archetypes : list Archetype.t) : list Z :=
  map (fun a => Z.pos (Archetype.weight a)) archetypes.

(** Modelled from the spec: the lowest weight among the archetypes. *)
Definition minWeight (archetypes : list Archetype.t) : Z :=
  match weights archetypes with
  | [] => 0%Z
  | w :: ws => foldr Z.min w ws
  end.

(** Modelled from the spec: the list without its first archetype of weight
    [w]. *)
Fixpoint removeFirstOfWeight (w : Z) (archetypes : list Archetype.t)
  : list Archetype.t :=
  match archetypes with
  | [] => []
  | a :: rest =>
      if (Z.pos (Archetype.weight a) =? w)%Z then rest
      else a :: removeFirstOfWeight w rest
  end.

(** Modelled from the spec: "drop the lowest-weighted archetypes"; among
    archetypes of equal lowest weight the one declared last goes first. *)
Definition dropLowest (archetypes : list Archetype.t) : list Archetype.t :=
  rev (removeFirstOfWeight (minWeight archetypes) (rev archetypes)).

(** Modelled from the spec: no section lies "below a 1-minute floor". *)
Definition meetsFloor (durations : list Z) : bool :=
  forallb (fun d => (1 <=? d)%Z) durations.

(** Modelled from the spec: archetypes are dropped "if minutes is small
    enough that the archetype count would force a section below a 1-minute
    floor". *)
Fixpoint fitArchetypes (fuel : nat) (minutes : Z)
    (archetypes : list Archetype.t) : list Archetype.t :=
  match fuel with
  | O => archetypes
  | S fuel' =>
      if meetsFloor (allocate minutes (weights archetypes)) then archetypes
      else fitArchetypes fuel' minutes (dropLowest archetypes)
  end.

(** Modelled from the spec: the Outline Allocator of section 4.4, part of
    the missing [lib/generators.ts]. *)
Definition allocateOutline (phr : Phrasing.t) (brief : VideoBrief.t Z)
    (cat : Category.t) : list OutlineSection.t :=
  let minutes := VideoBrief.minutes brief in
  let kept :=
    fitArchetypes (length (Category.archetypes cat)) minutes
      (Category.archetypes cat) in
  zip_with
    (fun a d =>
       {| OutlineSection.title := Archetype.title a;
          OutlineSection.purpose := Archetype.purpose a;
          OutlineSection.talkingPoints := Phrasing.talkingPoints phr brief cat a;
          OutlineSection.estimatedDuration := d |})
    kept (allocate minutes (weights kept)).

(** *** 4.5 Script Composer *)

(** Modelled from the spec: "for each OutlineSection, in order", one script
    section under the title of the outline section; the engagement hook
    knows whether the section is the last one. *)
Definition composeScript (phr : Phrasing.t) (brief : VideoBrief.t Z)
    (outline : list OutlineSection.t) : list ScriptSection.t :=
  imap
    (fun i section =>
       {| ScriptSection.title := OutlineSection.title section;
          ScriptSection.voiceover := Phrasing.voiceover phr brief section;
          ScriptSection.visualPrompts :=
            Phrasing.visualPrompts phr brief section;
          ScriptSection.engagementHook :=
            Phrasing.engagementHook phr brief
              (S i =? length outline)%nat section |})
    outline.

(** *** 4.6 SEO Composer *)

(** Modelled from the spec: "formatted mm:ss from cumulative minutes", with
    the first marker reading 0:00. *)
Definition formatTimestamp (cumulativeMinutes : Z) : jsstring :=
  numberToString cumulativeMinutes ++ lit ":00".

(** Modelled from the spec: "one marker per outline section at the
    cumulative-start timestamp of that section ..., label = section
    title". *)
Fixpoint chapterMarkers (start : Z) (outline : list OutlineSection.t)
  : list ChapterMarker.t :=
  match outline with
  | [] => []
  | section :: rest =>
      {| ChapterMarker.timestamp := formatTimestamp start;
         ChapterMarker.label := OutlineSection.title section |}
      :: chapterMarkers (start + OutlineSection.estimatedDuration section)
           rest
  end.

(** Modelled from the spec: "brief.keywords ∪ category terms, capped at a
    fixed count, de-duplicated, original relative order preserved for
    brief.keywords first". *)
Definition keywordTags (phr : Phrasing.t) (brief : VideoBrief.t Z)
    (cat : Category.t) : list jsstring :=
  take (Phrasing.tagCap phr)
    (Keywords.dedupFirstSeen []
       (VideoBrief.keywords brief ++ Category.categoryTerms cat)).

(** Modelled from the spec: the SEO Composer of section 4.6. *)
Definition composeSeo (phr : Phrasing.t) (brief : VideoBrief.t Z)
    (cat : Category.t) (outline : list OutlineSection.t) : SeoPackage.t :=
  {| SeoPackage.videoTitle := Phrasing.videoTitle phr brief cat;
     SeoPackage.description :=
       Phrasing.description phr brief (Phrasing.narrativeAngle phr brief cat);
     SeoPackage.keywordTags := keywordTags phr brief cat;
     SeoPackage.hashtags :=
       Phrasing.hashtags phr (VideoBrief.keywords brief);
     SeoPackage.chapterMarkers := chapterMarkers 0 outline |}.

(** *** 4.10 Blueprint Assembler *)

(** Modelled from the spec: the entry point [generateVideoBlueprint] of
    [lib/generators.ts], which is not among the sources: "invoke 4.1 -> 4.9
    in dependency order, assemble the VideoBlueprint, return it". *)
Definition generateVideoBlueprint (store : Store.t) (phr : Phrasing.t)
    (raw : VideoBrief.t Z) : VideoBlueprint.t :=
  let brief := normalize phr raw in
  let cat := resolveCategory store brief in
  let outline := allocateOutline phr brief cat in
  {| VideoBlueprint.topic := VideoBrief.topic brief;
     VideoBlueprint.videoLengthMinutes := VideoBrief.minutes brief;
     VideoBlueprint.targetAudience := VideoBrief.targetAudience brief;
     VideoBlueprint.tone := VideoBrief.tone brief;
     VideoBlueprint.narrativeAngle := Phrasing.narrativeAngle phr brief cat;
     VideoBlueprint.primaryKeywords := VideoBrief.keywords brief;
     VideoBlueprint.callToAction := VideoBrief.callToAction brief;
     VideoBlueprint.nicheAnalysis := Phrasing.nicheAnalysis phr brief cat;
     VideoBlueprint.outline := outline;
     VideoBlueprint.script := composeScript phr brief outline;
     VideoBlueprint.seo := composeSeo phr brief cat outline;
     VideoBlueprint.production := Phrasing.production phr brief;
     VideoBlueprint.upload := Phrasing.upload phr brief cat;
     VideoBlueprint.publishing := Phrasing.publishing phr brief cat |}.

(** Modelled from the spec: section 4.4 starts "from a category-specific or
    generic ordered list of section archetypes"; a store is well formed
    when every category, the fallback included, brings at least one. *)
Definition wellFormed (store : Store.t) : Prop :=
  Forall (fun cat => Category.archetypes cat <> [])
         (Store.fallback store :: Store.categories store).

End Engine.

(** ** Reading timestamps

    The order of chapter markers is stated on the number of seconds a
    timestamp of the form minutes:seconds denotes. *)

Module Timestamp.

Definition isColon (c : codeunit) : bool := (c =? 58)%N.

Definition timestampSeconds (s : jsstring) : option Z :=
  match split isColon s with
  | [m; sec] =>
      match parseDecimal m, parseDecimal sec with
      | Some a, Some b => Some (60 * a + b)%Z
      | _, _ => None
      end
  | _ => None
  end.

End Timestamp.

(** ** Concrete instances *)

Module Sample.

(** A form whose keyword field repeats a phrase, reached from the default
    form through the keyword handler. *)
Definition repeatedKeywordsForm : Page.FormState Z :=
  Page.onKeywordsChange Z (lit "seo, seo") (Page.DEFAULT_FORM Z (fun z => z)).

(** A small blueprint for the brief of the example scenario (cold brew
    coffee, ten minutes, home baristas). *)
Definition coldBrewBlueprint : VideoBlueprint.t := {|
  VideoBlueprint.topic := lit "cold brew coffee";
  VideoBlueprint.videoLengthMinutes := 10;
  VideoBlueprint.targetAudience := lit "home baristas";
  VideoBlueprint.tone := lit "Educational";
  VideoBlueprint.narrativeAngle := lit "slow extraction made simple";
  VideoBlueprint.primaryKeywords := [lit "iced latte"];
  VideoBlueprint.callToAction := lit "Subscribe for more brewing guides";
  VideoBlueprint.nicheAnalysis := {|
    NicheAnalysis.positioningStatement := lit "Practical brewing at home";
    NicheAnalysis.trendSignals :=
      [ {| TrendSignal.headline := lit "Home cafes";
           TrendSignal.rationale := lit "search interest is rising" |} ];
    NicheAnalysis.audienceQuestions := [lit "Which grind size works?"];
    NicheAnalysis.competitorWatch := [lit "Brew Lab Daily"] |};
  VideoBlueprint.outline :=
    [ {| OutlineSection.title := lit "Hook";
         OutlineSection.purpose := lit "Open with the payoff";
         OutlineSection.talkingPoints := [lit "Why steep overnight"];
         OutlineSection.estimatedDuration := 10 |} ];
  VideoBlueprint.script :=
    [ {| ScriptSection.title := lit "Hook";
         ScriptSection.voiceover := lit "Welcome back.";
         ScriptSection.visualPrompts := [lit "Pour shot"];
         ScriptSection.engagementHook := lit "Comment your ratio." |} ];
  VideoBlueprint.seo := {|
    SeoPackage.videoTitle := lit "Cold Brew Basics";
    SeoPackage.description := lit "Learn to brew.";
    SeoPackage.keywordTags := [lit "cold brew"; lit "coffee"];
    SeoPackage.hashtags := [lit "#ColdBrew"];
    SeoPackage.chapterMarkers :=
      [ {| ChapterMarker.timestamp := lit "0:00";
           ChapterMarker.label := lit "Cold open" |} ] |};
  VideoBlueprint.production := {|
    ProductionPlan.timelineDays :=
      {| TimelineDays.preProduction := 2;
         TimelineDays.production := 3;
         TimelineDays.postProduction := 4 |};
    ProductionPlan.checklist :=
      [ {| ChecklistTask.id := lit "task-script";
           ChecklistTask.title := lit "Script lock";
           ChecklistTask.description := lit "Freeze the draft";
           ChecklistTask.phase := lit "pre-production";
           ChecklistTask.owner := lit "Writer";
           ChecklistTask.dueAfterHours := 24 |} ];
    ProductionPlan.assetRequests :=
      [ {| AssetRequest.label := lit "B-roll";
           AssetRequest.notes := lit "Macro shots of grounds" |} ] |};
  VideoBlueprint.upload := {|
    UploadPackage.optimizedTitle := lit "Stop Buying Cold Brew";
    UploadPackage.optimizedDescription := lit "Everything in one jar.";
    UploadPackage.uploadTags := [lit "diy"];
    UploadPackage.thumbnailConcept := lit "Jar against dark wood";
    UploadPackage.endScreenIdeas := [lit "Watch the filter test"];
    UploadPackage.playlistTargets := [lit "Summer drinks"] |};
  VideoBlueprint.publishing := {|
    PublishingPlan.bestPublishWindows := [lit "Saturday morning"];
    PublishingPlan.communityPrompts := [lit "Share your recipe"];
    PublishingPlan.crossPromotion := [lit "Newsletter teaser"] |}
|}.

(** The same blueprint with every field the export does not read replaced. *)
Definition coldBrewBlueprintVariant : VideoBlueprint.t := {|
  VideoBlueprint.topic := VideoBlueprint.topic coldBrewBlueprint;
  VideoBlueprint.videoLengthMinutes :=
    VideoBlueprint.videoLengthMinutes coldBrewBlueprint;
  VideoBlueprint.targetAudience :=
    VideoBlueprint.targetAudience coldBrewBlueprint;
  VideoBlueprint.tone := VideoBlueprint.tone coldBrewBlueprint;
  VideoBlueprint.narrativeAngle :=
    VideoBlueprint.narrativeAngle coldBrewBlueprint;
  VideoBlueprint.primaryKeywords := [];
  VideoBlueprint.callToAction := VideoBlueprint.callToAction coldBrewBlueprint;
  VideoBlueprint.nicheAnalysis := {|
    NicheAnalysis.positioningStatement := lit "Practical brewing at home";
    NicheAnalysis.trendSignals :=
      [ {| TrendSignal.headline := lit "Home cafes";
           TrendSignal.rationale := lit "search interest is rising" |} ];
    NicheAnalysis.audienceQuestions := [];
    NicheAnalysis.competitorWatch := [] |};
  VideoBlueprint.outline :=
    [ {| OutlineSection.title := lit "Hook";
         OutlineSection.purpose := lit "Open with the payoff";
         OutlineSection.talkingPoints := [];
         OutlineSection.estimatedDuration := 10 |} ];
  VideoBlueprint.script := VideoBlueprint.script coldBrewBlueprint;
  VideoBlueprint.seo := {|
    SeoPackage.videoTitle := lit "Cold Brew Basics";
    SeoPackage.description := lit "Learn to brew.";
    SeoPackage.keywordTags := [lit "cold brew"; lit "coffee"];
    SeoPackage.hashtags := [lit "#Other"];
    SeoPackage.chapterMarkers := [] |};
  VideoBlueprint.production := {|
    ProductionPlan.timelineDays :=
      {| TimelineDays.preProduction := 7;
         TimelineDays.production := 8;
         TimelineDays.postProduction := 9 |};
    ProductionPlan.checklist :=
      [ {| ChecklistTask.id := lit "other-id";
           ChecklistTask.title := lit "Script lock";
           ChecklistTask.description := [];
           ChecklistTask.phase := lit "pre-production";
           ChecklistTask.owner := lit "Writer";
           ChecklistTask.dueAfterHours := 0 |} ];
    ProductionPlan.assetRequests := [] |};
  VideoBlueprint.upload := {|
    UploadPackage.optimizedTitle := lit "Stop Buying Cold Brew";
    UploadPackage.optimizedDescription := [];
    UploadPackage.uploadTags := [];
    UploadPackage.thumbnailConcept := lit "Jar against dark wood";
    UploadPackage.endScreenIdeas := [];
    UploadPackage.playlistTargets := [] |};
  VideoBlueprint.publishing := VideoBlueprint.publishing coldBrewBlueprint
|}.

(** [Number(...)] on the strings a number input reports for whole
    non-negative values, that is, runs of decimal digits; the empty string
    converts to zero.  [None] stands for every other result. *)
Definition wholeNumber (s : jsstring) : option Z :=
  match s with
  | [] => Some 0%Z
  | _ :: _ => parseDigits 0 s
  end.

Definition wholeNumberIsTruthy (n : option Z) : bool :=
  match n with
  | Some z => negb (z =? 0)%Z
  | None => false
  end.

(** The default form over these numbers. *)
Definition defaultForm : Page.FormState (option Z) :=
  Page.DEFAULT_FORM (option Z) Some.

(** A browser without the asynchronous clipboard interface. *)
Definition noClipboard : Clipboard.environment :=
  {| Clipboard.navigator := Some Clipboard.ClipboardUndefined |}.

(** A browser whose clipboard accepts every write. *)
Definition workingClipboard : Clipboard.environment :=
  {| Clipboard.navigator :=
       Some (Clipboard.ClipboardObject
               (Some (fun _ => Clipboard.Return Clipboard.Resolves))) |}.

(** A small heuristics store: one design category and the generic
    fallback, each with five section archetypes. *)
Definition designCategory : Category.t := {|
  Category.identifier := lit "design";
  Category.triggerTerms := [lit "design"; lit "figma"];
  Category.archetypes :=
    [ Archetype.mk (lit "Cold open") (lit "Earn the first minute") 10;
      Archetype.mk (lit "System map") (lit "Frame the problem") 20;
      Archetype.mk (lit "Workflow teardown") (lit "Teach the method") 40;
      Archetype.mk (lit "Team case study") (lit "Prove it works") 20;
      Archetype.mk (lit "Recap") (lit "Land the call to action") 10 ];
  Category.categoryTerms := [lit "design systems"; lit "design ops"]
|}.

Definition genericCategory : Category.t := {|
  Category.identifier := lit "general";
  Category.triggerTerms := [];
  Category.archetypes :=
    [ Archetype.mk (lit "Hook") (lit "Earn the first minute") 12;
      Archetype.mk (lit "Context") (lit "Frame the problem") 18;
      Archetype.mk (lit "Core teaching") (lit "Teach the method") 35;
      Archetype.mk (lit "Proof") (lit "Show a result") 20;
      Archetype.mk (lit "Recap") (lit "Land the call to action") 15 ];
  Category.categoryTerms := [lit "how to"; lit "tutorial"]
|}.

Definition store : Store.t := {|
  Store.categories := [designCategory];
  Store.fallback := genericCategory
|}.

Definition emptyUpload : UploadPackage.t := {|
  UploadPackage.optimizedTitle := [];
  UploadPackage.optimizedDescription := [];
  UploadPackage.uploadTags := [];
  UploadPackage.thumbnailConcept := [];
  UploadPackage.endScreenIdeas := [];
  UploadPackage.playlistTargets := []
|}.

(** A plain wording: every template returns the text it is built around. *)
Definition phrasing : Phrasing.t := {|
  Phrasing.defaultTopic := lit "your topic";
  Phrasing.defaultAudience := lit "your audience";
  Phrasing.defaultCallToAction := lit "Subscribe";
  Phrasing.defaultTone := lit "Educational";
  Phrasing.tagCap := 15;
  Phrasing.narrativeAngle := fun brief _ => VideoBrief.topic brief;
  Phrasing.nicheAnalysis := fun brief _ =>
    {| NicheAnalysis.positioningStatement := VideoBrief.topic brief;
       NicheAnalysis.trendSignals := [];
       NicheAnalysis.audienceQuestions := [];
       NicheAnalysis.competitorWatch := [] |};
  Phrasing.talkingPoints := fun brief _ a => [Archetype.purpose a];
  Phrasing.voiceover := fun brief section => OutlineSection.purpose section;
  Phrasing.visualPrompts := fun _ section => [OutlineSection.title section];
  Phrasing.engagementHook := fun brief isLast _ =>
    if isLast then VideoBrief.callToAction brief else lit "Stay with me.";
  Phrasing.videoTitle := fun brief _ => VideoBrief.topic brief;
  Phrasing.description := fun brief angle => angle;
  Phrasing.hashtags := fun keywords => map (fun k => 35%N :: k) keywords;
  Phrasing.production := fun _ =>
    {| ProductionPlan.timelineDays := TimelineDays.mk 1 1 1;
       ProductionPlan.checklist := [];
       ProductionPlan.assetRequests := [] |};
  Phrasing.upload := fun _ _ => emptyUpload;
  Phrasing.publishing := fun _ _ => PublishingPlan.mk [] [] []
|}.

(** The brief of the example scenario of the specification. *)
Definition coldBrewBrief : VideoBrief.t Z := {|
  VideoBrief.topic := lit "cold brew coffee";
  VideoBrief.minutes := 10%Z;
  VideoBrief.targetAudience := lit "home baristas";
  VideoBrief.tone := lit "Educational";
  VideoBrief.keywords := [lit "cold brew"; lit "coffee"];
  VideoBrief.callToAction := lit "Subscribe for more brewing guides"
|}.

Definition withMinutes (minutes : Z) (brief : VideoBrief.t Z)
  : VideoBrief.t Z :=
  {| VideoBrief.topic := VideoBrief.topic brief;
     VideoBrief.minutes := minutes;
     VideoBrief.targetAudience := VideoBrief.targetAudience brief;
     VideoBrief.tone := VideoBrief.tone brief;
     VideoBrief.keywords := VideoBrief.keywords brief;
     VideoBrief.callToAction := VideoBrief.callToAction brief |}.

End Sample.

(** ** The sections of the export, as the specification lists them

    A second rendering of the export, written section by section in the
    order the specification gives, to compare [formatBlueprintText] with.
    Every section is the list of array entries it contributes, blank
    entries included. *)

Module ExportSections.

Record section := mkSection { name : string; lines : list jsstring }.

Definition bullet_spec (item : jsstring) : jsstring := lit "- " ++ item.

(** One script section, line by line; a section without visual prompts has
    one empty bullet, and the block ends with a line feed. *)
Definition scriptBlock_spec (index : nat) (s : ScriptSection.t)
  : list jsstring :=
  [ lit "Section " ++ numberToString (Z.of_nat index + 1) ++ lit ": "
      ++ ScriptSection.title s;
    ScriptSection.voiceover s;
    [];
    lit "Visual Prompts:" ]
  ++ map bullet_spec
       (match ScriptSection.visualPrompts s with
        | [] => [[]]
        | p :: ps => p :: ps
        end)
  ++ [ lit "Engagement: " ++ ScriptSection.engagementHook s; [] ].

Definition sections_spec (bp : VideoBlueprint.t) : list section :=
  let niche := VideoBlueprint.nicheAnalysis bp in
  let seo := VideoBlueprint.seo bp in
  let upload := VideoBlueprint.upload bp in
  let publishing := VideoBlueprint.publishing bp in
  [ mkSection "header"
      [ lit "YouTube Blueprint " ++ [EM_DASH] ++ lit " "
          ++ VideoBlueprint.topic bp ];
    mkSection "audience/tone/length"
      [ [];
        lit "Audience: " ++ VideoBlueprint.targetAudience bp;
        lit "Tone: " ++ VideoBlueprint.tone bp;
        lit "Length: " ++ numberToString (VideoBlueprint.videoLengthMinutes bp)
          ++ lit " minutes" ];
    mkSection "narrative angle"
      [ lit "Narrative Angle: " ++ VideoBlueprint.narrativeAngle bp ];
    mkSection "niche positioning"
      [ []; lit "Niche Positioning:";
        NicheAnalysis.positioningStatement niche ];
    mkSection "trend signals"
      ([] :: lit "Trend Signals:"
          :: map (fun s => lit "- " ++ TrendSignal.headline s ++ lit ": "
                             ++ TrendSignal.rationale s)
               (NicheAnalysis.trendSignals niche));
    mkSection "outline"
      ([] :: lit "Outline:"
          :: map (fun s => lit "- " ++ OutlineSection.title s ++ lit " ("
                             ++ numberToString
                                  (OutlineSection.estimatedDuration s)
                             ++ lit " min): " ++ OutlineSection.purpose s)
               (VideoBlueprint.outline bp));
    mkSection "script"
      [ []; lit "Script:";
        join [LF]
          (imap (fun i s => join [LF] (scriptBlock_spec i s))
             (VideoBlueprint.script bp)) ];
    mkSection "SEO title/description/tags"
      [ []; lit "SEO Title:"; SeoPackage.videoTitle seo;
        []; lit "SEO Description:"; SeoPackage.description seo;
        []; lit "Tags:"; join (lit ", ") (SeoPackage.keywordTags seo) ];
    mkSection "production checklist"
      ([] :: lit "Production Checklist:"
          :: map (fun t => lit "- [ ] " ++ ChecklistTask.title t ++ lit " ("
                             ++ ChecklistTask.phase t ++ lit ", owner "
                             ++ ChecklistTask.owner t ++ lit ")")
               (ProductionPlan.checklist (VideoBlueprint.production bp)));
    mkSection "upload package"
      [ []; lit "Upload Package:";
        lit "Title: " ++ UploadPackage.optimizedTitle upload;
        lit "Thumbnail Concept: " ++ UploadPackage.thumbnailConcept upload;
        lit "Call To Action: " ++ VideoBlueprint.callToAction bp ];
    mkSection "publishing plan"
      ([] :: lit "Publishing Plan:"
          :: map bullet_spec (PublishingPlan.bestPublishWindows publishing)
          ++ [ []; lit "Community Prompts:" ]
          ++ map bullet_spec (PublishingPlan.communityPrompts publishing)
          ++ [ []; lit "Cross Promotion:" ]
          ++ map bullet_spec (PublishingPlan.crossPromotion publishing)) ].

(** The sections laid end to end, joined by line feeds. *)
Definition render_spec (bp : VideoBlueprint.t) : jsstring :=
  join [LF] (concat (map lines (sections_spec bp))).

End ExportSections.

(** ** The accumulator of the duration total (page.tsx lines 65-68) *)

Module Totals.

(** [Number.MAX_SAFE_INTEGER]: up to it every integer is a JavaScript
    number, and a sum of two non-negative integers that stays below it is
    computed exactly. *)
Definition MAX_SAFE_INTEGER : Z := 2 ^ 53 - 1.

(** The values [acc] takes while [reduce] walks the outline, the initial
    value and the result included. *)
Fixpoint accumulators (acc : Z) (outline : list OutlineSection.t) : list Z :=
  match outline with
  | [] => [acc]
  | section :: rest =>
      acc :: accumulators (acc + OutlineSection.estimatedDuration section)
               rest
  end.

(** Every addition of the walk is exact in JavaScript arithmetic. *)
Definition exact (outline : list OutlineSection.t) : Prop :=
  Forall (fun acc => (0 <= acc <= MAX_SAFE_INTEGER)%Z)
         (accumulators 0 outline).

End Totals.

(** ** The clipboard helper under every binding of [navigator]

    [copyToClipboard] (page.tsx lines 54-56) once more, with the global
    [navigator] unbound, bound to undefined or null, or bound to an
    object. *)

Module ClipboardGlobal.

Inductive navigatorBinding :=
  | NavigatorUnbound
  | NavigatorUndefined
  | NavigatorNull
  | NavigatorObject (clipboard : Clipboard.clipboardSlot).

(** Reading [navigator] throws a ReferenceError when the name is unbound;
    reading [.clipboard] off undefined or null throws a TypeError; the
    optional chain then guards the value of [clipboard] only.  A
    [ClipboardObject None] stands for every value of [clipboard] that is not
    nullish and has no callable [writeText]. *)
Definition copyToClipboard (nav : navigatorBinding) (text : jsstring)
  : Clipboard.completion Clipboard.result * list jsstring :=
  match nav with
  | NavigatorUnbound => (Clipboard.Throw Clipboard.ReferenceError, [])
  | NavigatorUndefined | NavigatorNull =>
      (Clipboard.Throw Clipboard.TypeError, [])
  | NavigatorObject Clipboard.ClipboardUndefined
  | NavigatorObject Clipboard.ClipboardNull =>
      (Clipboard.Return Clipboard.Undefined, [])
  | NavigatorObject (Clipboard.ClipboardObject None) =>
      (Clipboard.Throw Clipboard.TypeError, [])
  | NavigatorObject (Clipboard.ClipboardObject (Some writeText)) =>
      match writeText text with
      | Clipboard.Return p =>
          (Clipboard.Return (Clipboard.Promise p), [text])
      | Clipboard.Throw e => (Clipboard.Throw e, [text])
      end
  end.


End ClipboardGlobal.

(** ** Shapes of keyword text *)

Module KeywordShape.

(** White space and commas: what [splitKeywords] treats as padding. *)
Definition isPadding (c : codeunit) : bool :=
  isWhiteSpace c || Keywords.isSeparator c.

(** A phrase as [splitKeywords] returns it: non-empty, trimmed, free of
    separators. *)
Definition isCleanPhrase (k : jsstring) : Prop :=
  k <> [] /\ trim k = k
  /\ forallb (fun c => negb (Keywords.isSeparator c)) k = true.

End KeywordShape.

(** ** The form handlers and the actions of the page

    The [onChange] handlers of the remaining inputs (page.tsx lines 107-109,
    139-141, 156-158 and 167-172), each the state updater
    [(prev) => ({ ...prev, field: event.target.value })], and the page as a
    state machine over form edits and submits. *)

Module Actions.

Section WithNumbers.

Variable number : Type.
Variable StringToNumber : jsstring -> number.
Variable ofZ : Z -> number.
Variable numberIsTruthy : number -> bool.

Local Abbreviation FormState := (Page.FormState number).
Local Abbreviation PageState := (Page.PageState number).

Definition onTopicChange (targetValue : jsstring) (prev : FormState)
  : FormState :=
  {| Page.topic := targetValue;
     Page.minutes := Page.minutes number prev;
     Page.audience := Page.audience number prev;
     Page.tone := Page.tone number prev;
     Page.callToAction := Page.callToAction number prev;
     Page.keywords := Page.keywords number prev |}.

Definition onToneChange (targetValue : jsstring) (prev : FormState)
  : FormState :=
  {| Page.topic := Page.topic number prev;
     Page.minutes := Page.minutes number prev;
     Page.audience := Page.audience number prev;
     Page.tone := targetValue;
     Page.callToAction := Page.callToAction number prev;
     Page.keywords := Page.keywords number prev |}.

Definition onAudienceChange (targetValue : jsstring) (prev : FormState)
  : FormState :=
  {| Page.topic := Page.topic number prev;
     Page.minutes := Page.minutes number prev;
     Page.audience := targetValue;
     Page.tone := Page.tone number prev;
     Page.callToAction := Page.callToAction number prev;
     Page.keywords := Page.keywords number prev |}.

Definition onCallToActionChange (targetValue : jsstring) (prev : FormState)
  : FormState :=
  {| Page.topic := Page.topic number prev;
     Page.minutes := Page.minutes number prev;
     Page.audience := Page.audience number prev;
     Page.tone := Page.tone number prev;
     Page.callToAction := targetValue;
     Page.keywords := Page.keywords number prev |}.

(** The six inputs of the form. *)
Inductive field :=
  | Topic | Minutes | Tone | Audience | CallToAction | KeywordsField.

(** A change event: the input it comes from and [event.target.value]. *)
Record edit := mkEdit { target : field; targetValue : jsstring }.

(** The state updater the input's [onChange] passes to [setForm]. *)
Definition applyEdit (e : edit) (prev : FormState) : FormState :=
  match target e with
  | Topic => onTopicChange (targetValue e) prev
  | Minutes =>
      Page.onMinutesChange number StringToNumber ofZ numberIsTruthy
        (targetValue e) prev
  | Tone => onToneChange (targetValue e) prev
  | Audience => onAudienceChange (targetValue e) prev
  | CallToAction => onCallToActionChange (targetValue e) prev
  | KeywordsField => Page.onKeywordsChange number (targetValue e) prev
  end.

(** What a user does to the page: change an input, or submit the form
    (the submit event reaching [handleGenerate]). *)
Inductive action :=
  | Edit (e : edit)
  | Submit.

(** [setForm] replaces the form and leaves the other two state cells. *)
Definition setForm (update : FormState -> FormState) (st : PageState)
  : PageState :=
  {| Page.form := update (Page.form number st);
     Page.blueprint := Page.blueprint number st;
     Page.isThinking := Page.isThinking number st |}.

(** What a call of the engine comes to: a plan, or a thrown error. *)
Inductive engineOutcome :=
  | Returns (plan : VideoBlueprint.t)
  | Throws (reason : jsstring).

(** [handleGenerate] (lines 71-87) with an engine that may throw: the
    [finally] block lowers the thinking flag on both paths; on a throw
    [setBlueprint] is never reached and the error leaves the handler.  The
    first component is the error the handler's promise rejects with. *)
Definition handleGenerateTry
    (engine : VideoBrief.t number -> engineOutcome) (st : PageState)
  : option jsstring * PageState :=
  let thinking := {| Page.form := Page.form number st;
                     Page.blueprint := Page.blueprint number st;
                     Page.isThinking := true |} in
  match engine (Page.generateArgument number (Page.form number thinking)) with
  | Returns plan =>
      (None,
       {| Page.form := Page.form number thinking;
          Page.blueprint := Some plan;
          Page.isThinking := false |})
  | Throws reason =>
      (Some reason,
       {| Page.form := Page.form number thinking;
          Page.blueprint := Page.blueprint number thinking;
          Page.isThinking := false |})
  end.

(** One action: an edit runs the state updater of its input; a submit runs
    [handleGenerate], whose engine call may return or throw. *)
Definition step (engine : VideoBrief.t number -> engineOutcome)
    (st : PageState) (a : action) : PageState :=
  match a with
  | Edit e => setForm (applyEdit e) st
  | Submit => (handleGenerateTry engine st).2
  end.

Definition run (engine : VideoBrief.t number -> engineOutcome)
    (st : PageState) (actions : list action) : PageState :=
  fold_left (step engine) actions st.

End WithNumbers.

End Actions.

(** ** The download helper ([downloadFile], page.tsx lines 42-52)

    The part of the browser the helper touches: the element objects, the
    children of [document.body], the blob URL store and the downloads the
    browser has started.  Elements and blob URLs are handles. *)

Module Download.

Record blob := mkBlob { parts : jsstring; type : jsstring }.

(** The two attributes the helper sets on its anchor element. *)
Record anchor := mkAnchor { href : option nat; download : option jsstring }.

Record browser := mkBrowser {
  elements : gmap nat anchor;
  bodyChildren : list nat;
  blobUrls : gmap nat blob;
  downloads : list (jsstring * blob)
}.

(** [URL.createObjectURL]: a URL no live blob URL equals. *)
Definition createObjectURL (b : blob) (w : browser) : nat * browser :=
  let url := fresh (dom (blobUrls w)) in
  (url,
   {| elements := elements w; bodyChildren := bodyChildren w;
      blobUrls := <[url := b]> (blobUrls w); downloads := downloads w |}).

(** [document.createElement("a")]: a new element, attached nowhere. *)
Definition createElement (w : browser) : nat * browser :=
  let node := fresh (dom (elements w) ∪ list_to_set (bodyChildren w)) in
  (node,
   {| elements := <[node := mkAnchor None None]> (elements w);
      bodyChildren := bodyChildren w;
      blobUrls := blobUrls w; downloads := downloads w |}).

Definition setHref (node url : nat) (w : browser) : browser :=
  {| elements :=
       alter (fun a => mkAnchor (Some url) (download a)) node (elements w);
     bodyChildren := bodyChildren w;
     blobUrls := blobUrls w; downloads := downloads w |}.

Definition setDownload (node : nat) (name : jsstring) (w : browser)
  : browser :=
  {| elements :=
       alter (fun a => mkAnchor (href a) (Some name)) node (elements w);
     bodyChildren := bodyChildren w;
     blobUrls := blobUrls w; downloads := downloads w |}.

(** [appendChild]: the node becomes the last child; a node that is a child
    already is moved. *)
Definition appendChild (node : nat) (w : browser) : browser :=
  {| elements := elements w;
     bodyChildren :=
       List.filter (fun n => negb (n =? node)%nat) (bodyChildren w) ++ [node];
     blobUrls := blobUrls w; downloads := downloads w |}.

(** [removeChild]: [None] stands for the NotFoundError thrown for a node
    that is no child. *)
Definition removeChild (node : nat) (w : browser) : option browser :=
  if existsb (fun n => (n =? node)%nat) (bodyChildren w)
  then Some {| elements := elements w;
               bodyChildren :=
                 List.filter (fun n => negb (n =? node)%nat) (bodyChildren w);
               blobUrls := blobUrls w; downloads := downloads w |}
  else None.

(** [click] on an anchor: with a [download] attribute and an [href] that
    resolves in the blob URL store, the browser starts a download of the
    blob under the suggested name; otherwise nothing is downloaded. *)
Definition click (node : nat) (w : browser) : browser :=
  match elements w !! node with
  | Some (mkAnchor (Some url) (Some name)) =>
      match blobUrls w !! url with
      | Some b =>
          {| elements := elements w; bodyChildren := bodyChildren w;
             blobUrls := blobUrls w;
             downloads := downloads w ++ [(name, b)] |}
      | None => w
      end
  | _ => w
  end.

Definition revokeObjectURL (url : nat) (w : browser) : browser :=
  {| elements := elements w; bodyChildren := bodyChildren w;
     blobUrls := delete url (blobUrls w); downloads := downloads w |}.

Definition TEXT_PLAIN : jsstring := lit "text/plain;charset=utf-8".

(** [downloadFile], statement by statement; [None] when a statement
    throws. *)
Definition downloadFile (fileName contents : jsstring) (w : browser)
  : option browser :=
  let blob := mkBlob contents TEXT_PLAIN in
  let '(url, w) := createObjectURL blob w in
  let '(link, w) := createElement w in
  let w := setHref link url w in
  let w := setDownload link fileName w in
  let w := appendChild link w in
  let w := click link w in
  match removeChild link w with
  | Some w => Some (revokeObjectURL url w)
  | None => None
  end.

(** The [onClick] of the export button (lines 203-208). *)
Definition onExportClick (blueprint : VideoBlueprint.t) (w : browser)
  : option browser :=
  downloadFile (lit "youtube-blueprint.txt")
    (TextExport.formatBlueprintText blueprint) w.

End Download.

(** ** The export and copy buttons (page.tsx lines 200-220) *)

Module Buttons.

(** The [onClick] of the copy button (lines 215-217). *)
Definition onCopyClick (blueprint : VideoBlueprint.t)
    (env : Clipboard.environment)
  : Clipboard.completion Clipboard.result * list jsstring :=
  Clipboard.copyToClipboard env (TextExport.formatBlueprintText blueprint).

End Buttons.

(** ** The script sections of the export, line by line *)

Module ScriptLines.

(** The lines of one script section of the export: heading, voice-over, a
    blank line, the prompt heading, one bullet per visual prompt (a single
    empty bullet when there is none), the engagement line, and the empty
    line the closing line feed opens. *)
Definition scriptSectionLines (index : nat) (section : ScriptSection.t)
  : list jsstring :=
  let prompts :=
    match ScriptSection.visualPrompts section with
    | [] => [[]]
    | p :: ps => p :: ps
    end in
  [ lit "Section " ++ numberToString (Z.of_nat index + 1) ++ lit ": "
      ++ ScriptSection.title section;
    ScriptSection.voiceover section;
    [];
    lit "Visual Prompts:" ]
  ++ map TextExport.bulletLine prompts
  ++ [ lit "Engagement: " ++ ScriptSection.engagementHook section; [] ].

End ScriptLines.

(** ** What the form row renders (page.tsx lines 190-223) *)

Module View.

Section WithNumbers.

Variable number : Type.

(** [disabled={isThinking}] of the submit button (line 194). *)
Definition submitDisabled (st : Page.PageState number) : bool :=
  Page.isThinking number st.

Definition ELLIPSIS : codeunit := 0x2026%N.

(** The label of the submit button (line 196). *)
Definition submitLabel (st : Page.PageState number) : jsstring :=
  if Page.isThinking number st
  then lit "Synthesizing Blueprint" ++ [ELLIPSIS]
  else lit "Generate Blueprint".

(** [{blueprint ? (...) : null}]: the export and copy buttons (lines
    198-222) and the result cards (lines 227-494) are rendered when a
    blueprint is stored. *)
Definition exportOffered (st : Page.PageState number) : bool :=
  match Page.blueprint number st with
  | Some _ => true
  | None => false
  end.

End WithNumbers.

End View.

(** ** More concrete instances *)

Module Scenario.

(** A page that shows two other elements and holds one live blob URL. *)
Definition busyBrowser : Download.browser := {|
  Download.elements :=
    {[ 0%nat := Download.mkAnchor None None;
       1%nat := Download.mkAnchor None None ]};
  Download.bodyChildren := [0%nat; 1%nat];
  Download.blobUrls := {[ 0%nat := Download.mkBlob (lit "other") [] ]};
  Download.downloads := []
|}.

(** The cold brew blueprint with a second outline section. *)
Definition twoSections (first second : OutlineSection.t)
  : VideoBlueprint.t := {|
  VideoBlueprint.topic := VideoBlueprint.topic Sample.coldBrewBlueprint;
  VideoBlueprint.videoLengthMinutes := 10;
  VideoBlueprint.targetAudience :=
    VideoBlueprint.targetAudience Sample.coldBrewBlueprint;
  VideoBlueprint.tone := VideoBlueprint.tone Sample.coldBrewBlueprint;
  VideoBlueprint.narrativeAngle :=
    VideoBlueprint.narrativeAngle Sample.coldBrewBlueprint;
  VideoBlueprint.primaryKeywords :=
    VideoBlueprint.primaryKeywords Sample.coldBrewBlueprint;
  VideoBlueprint.callToAction :=
    VideoBlueprint.callToAction Sample.coldBrewBlueprint;
  VideoBlueprint.nicheAnalysis :=
    VideoBlueprint.nicheAnalysis Sample.coldBrewBlueprint;
  VideoBlueprint.outline := [first; second];
  VideoBlueprint.script := VideoBlueprint.script Sample.coldBrewBlueprint;
  VideoBlueprint.seo := VideoBlueprint.seo Sample.coldBrewBlueprint;
  VideoBlueprint.production :=
    VideoBlueprint.production Sample.coldBrewBlueprint;
  VideoBlueprint.upload := VideoBlueprint.upload Sample.coldBrewBlueprint;
  VideoBlueprint.publishing :=
    VideoBlueprint.publishing Sample.coldBrewBlueprint
|}.

Definition hookSection : OutlineSection.t :=
  OutlineSection.mk (lit "Hook") (lit "Open with the payoff") [] 3.

(** An engine that plans the cold brew blueprint for every brief with
    keywords and throws for a brief without. *)
Definition flakyEngine (brief : VideoBrief.t (option Z))
  : Actions.engineOutcome :=
  match VideoBrief.keywords brief with
  | [] => Actions.Throws (lit "no keywords")
  | _ :: _ => Actions.Returns Sample.coldBrewBlueprint
  end.

(** Durations at the edge of exact arithmetic. *)
Definition longSection : OutlineSection.t :=
  OutlineSection.mk (lit "Archive") (lit "Everything else") []
    (2 ^ 53 - 11).

End Scenario.

(** * Properties *)

(** ** Strings: joining, occurrence, splitting and trimming *)

Section StringFacts.

Implicit Types (s t k p sep : jsstring) (ks ps xs : list jsstring).

Lemma join_cons sep x y xs :
  join sep (x :: y :: xs) = x ++ sep ++ join sep (y :: xs).
Proof. reflexivity. Qed.

Lemma infix_refl s : infix s s.
Proof. exists [], []. by rewrite app_nil_r. Qed.

Lemma infix_trans s t u : infix s t -> infix t u -> infix s u.
Proof.
  intros (a & b & ->) (c & d & ->).
  exists (c ++ a), (b ++ d). by rewrite <- !app_assoc.
Qed.

Lemma infix_app_l s t pre : infix s t -> infix s (pre ++ t).
Proof.
  intros (a & b & ->). exists (pre ++ a), b. by rewrite <- app_assoc.
Qed.

Lemma infix_app_r s t post : infix s t -> infix s (t ++ post).
Proof.
  intros (a & b & ->). exists a, (b ++ post). by rewrite <- !app_assoc.
Qed.

Lemma infix_here s post : infix s (s ++ post).
Proof. by exists [], post. Qed.

Lemma infix_cons s t c : infix s t -> infix s (c :: t).
Proof. apply (infix_app_l s t [c]). Qed.

Lemma infix_join sep x xs : x ∈ xs -> infix x (join sep xs).
Proof.
  induction xs as [|y [|z xs] IH]; intros Hin.
  - by apply elem_of_nil in Hin.
  - apply list_elem_of_singleton in Hin as ->. apply infix_refl.
  - rewrite join_cons. apply elem_of_cons in Hin as [->|Hin].
    + apply infix_here.
    + apply infix_app_l, infix_app_l, IH, Hin.
Qed.

Lemma occursInOrder_app_l ks t pre :
  occursInOrder ks t -> occursInOrder ks (pre ++ t).
Proof.
  intros H. destruct H as [t|k ks a b H].
  - constructor.
  - rewrite app_assoc. by constructor.
Qed.

Lemma occursInOrder_app_r ks t post :
  occursInOrder ks t -> occursInOrder ks (t ++ post).
Proof.
  induction 1 as [t|k ks a b H IH].
  - constructor.
  - rewrite <- !app_assoc. by constructor.
Qed.

Lemma occursInOrder_sublist ks ks' t :
  ks' `sublist_of` ks -> occursInOrder ks t -> occursInOrder ks' t.
Proof.
  intros Hsub. revert t.
  induction Hsub as [|k l1 l2 Hsub IH|k l1 l2 Hsub IH]; intros t Hocc.
  - constructor.
  - inversion Hocc; subst. constructor. by apply IH.
  - inversion Hocc; subst.
    apply occursInOrder_app_l, occursInOrder_app_l. by apply IH.
Qed.

Lemma occursInOrder_infix ks ps t :
  Forall2 infix ks ps -> occursInOrder ps t -> occursInOrder ks t.
Proof.
  intros Hall. revert t.
  induction Hall as [|k p ks ps (a & b & ->) Hall IH]; intros t Hocc.
  - constructor.
  - inversion Hocc as [|? ? pre post Hrest]; subst.
    replace (pre ++ (a ++ k ++ b) ++ post)
      with ((pre ++ a) ++ k ++ (b ++ post))
      by (by rewrite <- !app_assoc).
    constructor. apply occursInOrder_app_l. by apply IH.
Qed.

(** The array entries occur in the joined text in array order. *)
Lemma occursInOrder_join sep xs : occursInOrder xs (join sep xs).
Proof.
  induction xs as [|x [|y xs] IH].
  - constructor.
  - replace (join sep [x]) with ([] ++ x ++ []) by apply app_nil_r.
    constructor. constructor.
  - rewrite join_cons.
    change (x ++ sep ++ join sep (y :: xs))
      with ([] ++ x ++ sep ++ join sep (y :: xs)).
    constructor. by apply occursInOrder_app_l.
Qed.

Lemma occursInOrder_elem_of ks t k : occursInOrder ks t -> k ∈ ks -> infix k t.
Proof.
  induction 1 as [t|k' ks a b H IH]; intros Hin.
  - by apply elem_of_nil in Hin.
  - apply elem_of_cons in Hin as [->|Hin].
    + apply infix_app_l, infix_here.
    + apply infix_app_l, infix_app_l. by apply IH.
Qed.

Lemma filter_sublist {A} (f : A -> bool) (l : list A) :
  List.filter f l `sublist_of` l.
Proof.
  induction l as [|x l IH]; simpl.
  - constructor.
  - destruct (f x); by constructor.
Qed.

Lemma filter_Forall {A} (f : A -> bool) (l : list A) :
  Forall (fun x => f x = true) (List.filter f l).
Proof.
  induction l as [|x l IH]; simpl.
  - constructor.
  - destruct (f x) eqn:E; [by constructor | done].
Qed.

Lemma truthyString_nonempty s : truthyString s = true <-> s <> [].
Proof. destruct s; simpl; split; congruence. Qed.

Lemma split_nonempty isSep s : split isSep s <> [].
Proof.
  destruct s as [|c s]; simpl; [done|].
  destruct (isSep c); [done|]. by destruct (split isSep s).
Qed.

(** The two equations that determine [split]. *)
Lemma split_no_separator isSep p :
  forallb (fun c => negb (isSep c)) p = true -> split isSep p = [p].
Proof.
  induction p as [|c p IH]; simpl; [done|].
  intros [Hc Hp]%andb_prop. apply negb_true_iff in Hc as ->.
  by rewrite (IH Hp).
Qed.

Lemma split_at_separator isSep p c rest :
  forallb (fun c => negb (isSep c)) p = true -> isSep c = true ->
  split isSep (p ++ c :: rest) = p :: split isSep rest.
Proof.
  intros Hp Hc. induction p as [|d p IH]; simpl.
  - by rewrite Hc.
  - simpl in Hp. apply andb_prop in Hp as [Hd Hp].
    apply negb_true_iff in Hd as ->. by rewrite (IH Hp).
Qed.

Lemma split_pieces_free isSep s :
  Forall (fun p => forallb (fun c => negb (isSep c)) p = true)
         (split isSep s).
Proof.
  induction s as [|c s IH]; simpl.
  - by repeat constructor.
  - destruct (isSep c) eqn:Hc.
    + by constructor.
    + destruct (split isSep s) as [|p ps].
      * repeat constructor. simpl. by rewrite Hc.
      * inversion IH; subst. constructor; [|done]. simpl. by rewrite Hc.
Qed.

Lemma split_head_prefix isSep s p ps :
  split isSep s = p :: ps ->
  exists post, s = p ++ post /\ occursInOrder ps post.
Proof.
  revert p ps. induction s as [|c s IH]; simpl; intros p ps Heq.
  - injection Heq as <- <-. exists []. split; [done|constructor].
  - destruct (isSep c).
    + injection Heq as <- <-. exists (c :: s). split; [done|].
      destruct (split isSep s) as [|q qs] eqn:E; [constructor|].
      destruct (IH q qs eq_refl) as (post & -> & Hocc).
      change (c :: q ++ post) with ([c] ++ q ++ post). by constructor.
    + destruct (split isSep s) as [|q qs] eqn:E.
      * by destruct (split_nonempty isSep s).
      * injection Heq as <- <-.
        destruct (IH q qs eq_refl) as (post & -> & Hocc).
        by exists post.
Qed.

Lemma split_occursInOrder isSep s : occursInOrder (split isSep s) s.
Proof.
  destruct (split isSep s) as [|p ps] eqn:E; [constructor|].
  destruct (split_head_prefix isSep s p ps E) as (post & -> & Hocc).
  change (p ++ post) with ([] ++ p ++ post). by constructor.
Qed.

Lemma trimStart_suffix s : exists pre, s = pre ++ trimStart s.
Proof.
  induction s as [|c s [pre IH]]; simpl.
  - by exists [].
  - destruct (isWhiteSpace c).
    + exists (c :: pre). simpl. by f_equal.
    + by exists [].
Qed.

Lemma trimEnd_prefix s : exists post, s = trimEnd s ++ post.
Proof.
  unfold trimEnd. destruct (trimStart_suffix (rev s)) as [pre H].
  exists (rev pre).
  rewrite <- rev_app_distr, <- H. by rewrite rev_involutive.
Qed.

Lemma trim_infix s : infix (trim s) s.
Proof.
  unfold trim.
  destruct (trimStart_suffix s) as [pre H].
  destruct (trimEnd_prefix (trimStart s)) as [post H'].
  exists pre, post. by rewrite <- H', <- H.
Qed.

End StringFacts.

(** ** Keywords *)

Section KeywordFacts.

Implicit Types (seen l : list jsstring).

Lemma dedupFirstSeen_length seen l :
  (length (Keywords.dedupFirstSeen seen l) <= length l)%nat.
Proof.
  revert seen. induction l as [|x l IH]; intros seen; simpl; [lia|].
  case_bool_decide; simpl.
  - specialize (IH seen). lia.
  - specialize (IH (x :: seen)). lia.
Qed.

Lemma dedupFirstSeen_fixpoint seen l :
  Keywords.dedupFirstSeen seen l = l <->
  NoDup l /\ (forall x, x ∈ l -> x ∉ seen).
Proof.
  revert seen. induction l as [|x l IH]; intros seen; simpl.
  - split; [intros _|done]. split; [constructor|].
    intros x Hx. by apply elem_of_nil in Hx.
  - case_bool_decide as Hseen.
    + split.
      * intros Heq. pose proof (dedupFirstSeen_length seen l) as Hlen.
        rewrite Heq in Hlen. simpl in Hlen. lia.
      * intros [_ Hfresh]. destruct (Hfresh x); [left|done].
    + split.
      * intros Heq. injection Heq as Heq.
        apply IH in Heq as [Hnd Hfresh]. split.
        -- constructor; [|done]. intros Hx.
           apply (Hfresh x Hx). left.
        -- intros y [->|Hy]%elem_of_cons; [done|].
           intros Hy'. apply (Hfresh y Hy). by right.
      * intros [Hnd Hfresh]. f_equal. apply IH.
        apply NoDup_cons in Hnd as [Hx Hnd]. split; [done|].
        intros y Hy [->|Hy']%elem_of_cons; [done|].
        apply (Hfresh y); [by right|done].
Qed.

Lemma dedupFirstSeen_NoDup seen l : NoDup (Keywords.dedupFirstSeen seen l).
Proof.
  assert (forall seen l,
            NoDup (Keywords.dedupFirstSeen seen l)
            /\ forall x, x ∈ Keywords.dedupFirstSeen seen l -> x ∉ seen)
    as H; [|apply H].
  clear. intros seen l. revert seen.
  induction l as [|x l IH]; intros seen; simpl.
  - split; [constructor|]. intros x Hx. by apply elem_of_nil in Hx.
  - case_bool_decide as Hseen; [apply IH|].
    destruct (IH (x :: seen)) as [Hnd Hfresh]. split.
    + constructor; [|done]. intros Hx. apply (Hfresh x Hx). left.
    + intros y [->|Hy]%elem_of_cons; [done|].
      intros Hy'. apply (Hfresh y Hy). by right.
Qed.

End KeywordFacts.

(** Pieces between separators are trimmed, empty pieces vanish, repeated
    phrases stay. *)
Example splitKeywords_examples :
  Keywords.splitKeywords (lit "design automation, ai design workflow, figma systems")
  = [lit "design automation"; lit "ai design workflow"; lit "figma systems"]
  /\ Keywords.splitKeywords (lit " seo ,,
  video ,seo,") = [lit "seo"; lit "video"; lit "seo"]
  /\ Keywords.splitKeywords (lit "") = []
  /\ split Keywords.isSeparator (lit "a,,b,") = [lit "a"; []; lit "b"; []].
Proof. repeat split; reflexivity. Qed.

(** C9.  Every element of the list [splitKeywords] returns is a non-empty
    string, and the elements keep the order of the phrases of the input:
    the result is a sub-sequence of the trimmed pieces between the
    separators, and its elements occur in the input string one after the
    other. *)
Theorem splitKeywords_nonempty_in_input_order (input : jsstring) :
  Forall (fun k => k <> []) (Keywords.splitKeywords input)
  /\ Keywords.splitKeywords input
       `sublist_of` map trim (split Keywords.isSeparator input)
  /\ occursInOrder (Keywords.splitKeywords input) input.
Proof.
  unfold Keywords.splitKeywords. split; [|split].
  - eapply Forall_impl; [apply filter_Forall|].
    intros k Hk. by apply truthyString_nonempty.
  - apply filter_sublist.
  - eapply occursInOrder_sublist; [apply filter_sublist|].
    eapply occursInOrder_infix; [|apply split_occursInOrder].
    apply Forall2_fmap_l, Forall_Forall2_diag, Forall_forall.
    intros p _. apply trim_infix.
Qed.

(** C5, as the specification words it, fails on the page code: the list
    handed to the engine keeps a repeated phrase. *)
Lemma keywords_handed_over_keep_duplicates :
  VideoBrief.keywords (Page.generateArgument Z Sample.repeatedKeywordsForm)
  <> Keywords.normalizeKeywords_spec
       (Page.keywords Z Sample.repeatedKeywordsForm).
Proof. vm_compute. discriminate. Qed.

(** C5, amended.  For every form, the keyword list handed to the engine is
    the raw keyword text split on comma and newline, each piece trimmed, the
    pieces that became empty dropped; duplicates are kept.  Removing the
    duplicates of that list gives the list the specification words, and the
    two lists are equal exactly when no phrase repeats. *)
Theorem keywords_handed_over (number : Type) (form : Page.FormState number) :
  let handed := VideoBrief.keywords (Page.generateArgument number form) in
  let raw := Page.keywords number form in
  handed = List.filter truthyString (map trim (split Keywords.isSeparator raw))
  /\ Keywords.normalizeKeywords_spec raw = Keywords.dedupFirstSeen [] handed
  /\ (handed = Keywords.normalizeKeywords_spec raw <-> NoDup handed).
Proof.
  simpl. unfold Keywords.normalizeKeywords_spec, Keywords.splitKeywords.
  split; [done|]. split; [done|].
  set (l := List.filter _ _). split.
  - intros ->. apply dedupFirstSeen_NoDup.
  - intros Hnd. symmetry. apply dedupFirstSeen_fixpoint.
    split; [done|]. intros x _. apply not_elem_of_nil.
Qed.

(** The default form repeats no phrase: there the two lists coincide. *)
Lemma keywords_handed_over_witness :
  VideoBrief.keywords
    (Page.generateArgument Z (Page.DEFAULT_FORM Z (fun z => z)))
  = Keywords.normalizeKeywords_spec
      (Page.keywords Z (Page.DEFAULT_FORM Z (fun z => z))).
Proof.
  apply (proj2 (proj2 (keywords_handed_over Z
                         (Page.DEFAULT_FORM Z (fun z => z))))).
  apply (bool_decide_unpack _). vm_compute. exact I.
Defined.

(** ** The plain-text export *)

Section ExportFacts.

Import TextExport.

Lemma startsWith_spec (p t : jsstring) :
  startsWith p t = true <-> exists post, t = p ++ post.
Proof.
  revert t. induction p as [|a p IH]; intros t; simpl.
  - split; [intros _; by exists t|done].
  - destruct t as [|b t].
    + split; [done|]. by intros [post H].
    + rewrite andb_true_iff, N.eqb_eq, IH. split.
      * intros [-> [post ->]]. by exists post.
      * intros [post H]. simpl in H. injection H as -> ->. eauto.
Qed.

Lemma includes_spec (p t : jsstring) : includes p t = true <-> infix p t.
Proof.
  induction t as [|b t IH]; simpl.
  - rewrite orb_false_r, startsWith_spec. split.
    + intros [post ->]. apply infix_here.
    + intros (pre & post & H). destruct pre; simpl in H.
      * by exists post.
      * done.
  - rewrite orb_true_iff, startsWith_spec, IH. split.
    + intros [[post ->]|H]; [apply infix_here|].
      by apply (infix_app_l _ _ [b]).
    + intros (pre & post & H). destruct pre as [|c pre]; simpl in H.
      * left. by exists post.
      * right. injection H as -> ->. by exists pre, post.
Qed.

Lemma line_infix (bp : VideoBlueprint.t) (line : jsstring) :
  line ∈ formatBlueprintLines bp -> infix line (formatBlueprintText bp).
Proof. apply infix_join. Qed.

Lemma map_factor {A B C} (f : A -> C) (g : A -> B) (h : B -> C)
    (l l' : list A) :
  (forall x, f x = h (g x)) -> map g l = map g l' -> map f l = map f l'.
Proof.
  intros Hf Hg.
  rewrite (map_ext f (fun x => h (g x)) Hf l).
  rewrite (map_ext f (fun x => h (g x)) Hf l').
  rewrite <- !(map_map g h). by rewrite Hg.
Qed.

End ExportFacts.

(** Membership of a given entry in a list built from conses, appends and
    maps; entries are compared syntactically. *)
Ltac elem_search :=
  lazymatch goal with
  | |- ?x ∈ ?x :: _ => apply list_elem_of_here
  | |- _ ∈ _ :: _ => apply list_elem_of_further; elem_search
  | |- ?f ?x ∈ map ?f _ ++ _ =>
      apply elem_of_app;
      first [ left; apply (list_elem_of_fmap_2 f); assumption
            | right; elem_search ]
  | |- _ ∈ map _ _ ++ _ => apply elem_of_app; right; elem_search
  | |- ?f ?x ∈ map ?f _ => apply (list_elem_of_fmap_2 f); assumption
  end.

(** The first entry of a list term that mentions [v]. *)
Ltac find_entry v entries k :=
  lazymatch entries with
  | ?e :: ?rest =>
      lazymatch e with
      | context [v] => k e
      | _ => find_entry v rest k
      end
  | map _ _ ++ ?rest => find_entry v rest k
  end.

(** Occurrence inside a concatenation; the pieces are compared
    syntactically. *)
Ltac infix_search :=
  lazymatch goal with
  | |- infix ?s ?s => apply infix_refl
  | |- infix ?s (?s ++ _) => apply infix_here
  | |- infix _ (_ ++ _) =>
      first [ apply infix_app_l; infix_search
            | apply infix_app_r; infix_search ]
  | |- infix _ (_ :: _) => apply infix_cons; infix_search
  end.

(** A sub-sequence of a list built from conses, appends and maps. *)
Ltac sublist_search :=
  repeat lazymatch goal with
    | |- [] `sublist_of` _ => apply sublist_nil_l
    | |- (?x :: _) `sublist_of` (?x :: _) => apply sublist_skip
    | |- _ `sublist_of` (_ :: _) => apply sublist_cons
    | |- _ `sublist_of` (map _ _ ++ _) => apply sublist_inserts_l
    end.

(** ** The sections of the export *)

Section SectionFacts.

Import TextExport.

Lemma join_app sep (xs ys : list jsstring) :
  xs <> [] -> ys <> [] ->
  join sep (xs ++ ys) = join sep xs ++ sep ++ join sep ys.
Proof.
  intros Hxs Hys. induction xs as [|x [|x' xs] IH]; [done| |].
  - destruct ys as [|y ys]; [done|]. cbn [app]. by rewrite join_cons.
  - cbn [app] in *. rewrite !join_cons, IH by done.
    by rewrite <- !app_assoc.
Qed.

(** The prompt list of a script section, joined with the bullet prefix, is
    the bullet lines of its prompts joined by line feeds. *)
Lemma bullets_join (p : jsstring) (ps : list jsstring) :
  lit "- " ++ join (NL ++ lit "- ") (p :: ps)
  = join NL (map bulletLine (p :: ps)).
Proof.
  revert p. induction ps as [|q qs IH]; intros p; [reflexivity|].
  cbn [map]. rewrite !join_cons. cbn [map] in IH. rewrite <- IH.
  unfold bulletLine. by rewrite <- !app_assoc.
Qed.

(** A script section of the export is its block of lines. *)
Lemma scriptSection_block (index : nat) (section : ScriptSection.t) :
  scriptSection index section
  = join [LF] (ExportSections.scriptBlock_spec index section).
Proof.
  unfold ExportSections.scriptBlock_spec, scriptSection.
  change ExportSections.bullet_spec with bulletLine.
  change [LF] with NL.
  destruct (ScriptSection.visualPrompts section) as [|p ps].
  - cbn [map app]. rewrite !join_cons. cbn [join].
    unfold bulletLine. rewrite <- !app_assoc. reflexivity.
  - assert (forall rest,
              lit "- " ++ join (NL ++ lit "- ") (p :: ps) ++ rest
              = join NL (map bulletLine (p :: ps)) ++ rest) as Hbullets.
    { intros rest. by rewrite app_assoc, bullets_join. }
    set (bullets := map bulletLine (p :: ps)) in *.
    assert (bullets <> []) as Hne by done.
    cbn [app]. rewrite !join_cons.
    change (lit "Visual Prompts:" :: bullets ++ ?tail)
      with ([lit "Visual Prompts:"] ++ bullets ++ tail).
    rewrite !join_app by (done || by destruct bullets).
    rewrite join_cons. cbn [join]. rewrite <- !app_assoc.
    rewrite Hbullets. reflexivity.
Qed.

(** The array of [formatBlueprintText] is the sections of the
    specification laid end to end. *)
Lemma formatBlueprintLines_sections (bp : VideoBlueprint.t) :
  formatBlueprintLines bp
  = concat (map ExportSections.lines (ExportSections.sections_spec bp)).
Proof.
  unfold formatBlueprintLines, ExportSections.sections_spec. cbv zeta.
  cbn [map concat ExportSections.lines].
  unfold scriptSections.
  rewrite (imap_ext scriptSection
             (fun i s => join [LF] (ExportSections.scriptBlock_spec i s)))
    by (intros; apply scriptSection_block).
  rewrite app_nil_r. rewrite <- ?app_assoc. cbn [app]. reflexivity.
Qed.

(** The renderings of the sections occur in the joined text one after the
    other. *)
Lemma occursInOrder_sections sep (xss : list (list jsstring)) :
  occursInOrder (map (join sep) xss) (join sep (concat xss)).
Proof.
  induction xss as [|xs xss IH]; cbn [map concat]; [constructor|].
  destruct xs as [|x xs].
  - cbn [app]. change (join sep (concat xss))
      with ([] ++ join sep [] ++ join sep (concat xss)).
    by constructor.
  - destruct (concat xss) as [|y ys] eqn:E.
    + rewrite app_nil_r.
      replace (join sep (x :: xs)) with ([] ++ join sep (x :: xs) ++ [])
        at 2 by apply app_nil_r.
      by constructor.
    + rewrite join_app by done.
      change (join sep (x :: xs) ++ sep ++ join sep (y :: ys))
        with ([] ++ join sep (x :: xs) ++ sep ++ join sep (y :: ys)).
      constructor. by apply occursInOrder_app_l.
Qed.

End SectionFacts.

(** The export of the cold brew blueprint, line by line. *)
Example formatBlueprintText_coldBrew :
  TextExport.formatBlueprintText Sample.coldBrewBlueprint
  = lit "YouTube Blueprint " ++ [EM_DASH] ++ lit " cold brew coffee

Audience: home baristas
Tone: Educational
Length: 10 minutes
Narrative Angle: slow extraction made simple

Niche Positioning:
Practical brewing at home

Trend Signals:
- Home cafes: search interest is rising

Outline:
- Hook (10 min): Open with the payoff

Script:
Section 1: Hook
Welcome back.

Visual Prompts:
- Pour shot
Engagement: Comment your ratio.


SEO Title:
Cold Brew Basics

SEO Description:
Learn to brew.

Tags:
cold brew, coffee

Production Checklist:
- [ ] Script lock (pre-production, owner Writer)

Upload Package:
Title: Stop Buying Cold Brew
Thumbnail Concept: Jar against dark wood
Call To Action: Subscribe for more brewing guides

Publishing Plan:
- Saturday morning

Community Prompts:
- Share your recipe

Cross Promotion:
- Newsletter teaser".
Proof. vm_compute. reflexivity. Qed.

(** C6.  For every blueprint the export presents its sections in the fixed
    order header, audience/tone/length, narrative angle, niche positioning,
    trend signals, outline, script, SEO title/description/tags, production
    checklist, upload package, publishing plan: the array that is joined is
    these eleven sections, each with its heading and its content, laid end
    to end in that order; the text is their rendering; the rendering of
    each section occurs in the text, one after the other in that order;
    the first lines of the sections are entries of the joined array in that
    order and occur in the text in that order; and the text begins with the
    header. *)
Theorem formatBlueprintText_section_order (bp : VideoBlueprint.t) :
  map ExportSections.name (ExportSections.sections_spec bp)
  = [ "header"; "audience/tone/length"; "narrative angle";
      "niche positioning"; "trend signals"; "outline"; "script";
      "SEO title/description/tags"; "production checklist";
      "upload package"; "publishing plan" ]%string
  /\ TextExport.formatBlueprintLines bp
     = concat (map ExportSections.lines (ExportSections.sections_spec bp))
  /\ TextExport.formatBlueprintText bp = ExportSections.render_spec bp
  /\ occursInOrder
       (map (fun s => join [LF] (ExportSections.lines s))
          (ExportSections.sections_spec bp))
       (TextExport.formatBlueprintText bp)
  /\ TextExport.sectionHeadings bp
       `sublist_of` TextExport.formatBlueprintLines bp
  /\ occursInOrder (TextExport.sectionHeadings bp)
       (TextExport.formatBlueprintText bp)
  /\ exists rest,
       TextExport.formatBlueprintText bp
       = (lit "YouTube Blueprint " ++ [EM_DASH] ++ lit " "
            ++ VideoBlueprint.topic bp) ++ rest.
Proof.
  assert (TextExport.sectionHeadings bp
            `sublist_of` TextExport.formatBlueprintLines bp) as Hsub.
  { unfold TextExport.sectionHeadings, TextExport.formatBlueprintLines.
    cbv zeta. cbn [app]. sublist_search. }
  pose proof (formatBlueprintLines_sections bp) as Hlines.
  split; [reflexivity|]. split; [exact Hlines|].
  split; [unfold TextExport.formatBlueprintText, ExportSections.render_spec;
          by rewrite Hlines|].
  split.
  { unfold TextExport.formatBlueprintText. rewrite Hlines.
    change TextExport.NL with [LF]. rewrite <- map_map.
    apply occursInOrder_sections. }
  split; [done|]. split.
  - eapply occursInOrder_sublist; [exact Hsub|].
    apply occursInOrder_join.
  - unfold TextExport.formatBlueprintText, TextExport.formatBlueprintLines.
    cbv zeta. cbn [app]. rewrite join_cons. eauto.
Qed.

(** C7, as the specification words it, fails on the page code: none of the
    fields the export leaves out occurs in the text rendered for the cold
    brew blueprint, the hash tag among them. *)
Lemma export_omits_fields :
  ~ Forall (fun v => infix v
              (TextExport.formatBlueprintText Sample.coldBrewBlueprint))
      (TextExport.allFieldTexts Sample.coldBrewBlueprint)
  /\ lit "#ColdBrew"
       ∈ SeoPackage.hashtags (VideoBlueprint.seo Sample.coldBrewBlueprint)
  /\ Forall (fun v => ~ infix v
               (TextExport.formatBlueprintText Sample.coldBrewBlueprint))
       (TextExport.omittedFieldTexts Sample.coldBrewBlueprint).
Proof.
  assert (Forall (fun v => ~ infix v
                    (TextExport.formatBlueprintText Sample.coldBrewBlueprint))
            (TextExport.omittedFieldTexts Sample.coldBrewBlueprint)) as Hno.
  { assert (forallb
              (fun v => negb (includes v
                 (TextExport.formatBlueprintText Sample.coldBrewBlueprint)))
              (TextExport.omittedFieldTexts Sample.coldBrewBlueprint) = true)
      as Hb by (vm_compute; reflexivity).
    apply Forall_forall. intros v Hv Hinf. apply includes_spec in Hinf.
    rewrite forallb_forall in Hb. apply list_elem_of_In in Hv.
    specialize (Hb v Hv). rewrite Hinf in Hb. discriminate. }
  assert (lit "#ColdBrew"
            ∈ SeoPackage.hashtags (VideoBlueprint.seo Sample.coldBrewBlueprint))
    as Hin by (apply (bool_decide_unpack _); vm_compute; exact I).
  split; [|split; [exact Hin|exact Hno]].
  intros Hall. unfold TextExport.allFieldTexts in Hall.
  apply Forall_app in Hall as [_ Hall].
  rewrite Forall_forall in Hall, Hno.
  assert (lit "#ColdBrew"
            ∈ TextExport.omittedFieldTexts Sample.coldBrewBlueprint)
    as Hin' by (apply (bool_decide_unpack _); vm_compute; exact I).
  exact (Hno _ Hin' (Hall _ Hin')).
Qed.

Section ExportSerialisation.

Import TextExport.

Variable bp : VideoBlueprint.t.

Local Ltac forall_cases :=
  repeat (apply Forall_cons; split); [..|exact (Forall_nil_2 _)].

Local Ltac unfold_lines :=
  unfold formatBlueprintLines; cbv zeta; cbn [app].

(** [line] is an entry of the joined array, hence occurs in the text. *)
Local Ltac line_in_text := apply line_infix; unfold_lines; elem_search.

(** The field of the goal occurs in the first array entry that mentions
    it. *)
Local Ltac in_text :=
  lazymatch goal with
  | |- infix ?v (formatBlueprintText ?b) =>
      let entries := eval cbv zeta beta delta [formatBlueprintLines]
                       in (formatBlueprintLines b) in
      let entries := eval cbn [app] in entries in
      find_entry v entries
        ltac:(fun e => apply infix_trans with e;
                         [infix_search | line_in_text])
  end.

Lemma scriptSection_in_text (i : nat) (s : ScriptSection.t) :
  VideoBlueprint.script bp !! i = Some s ->
  infix (scriptSection i s) (formatBlueprintText bp).
Proof.
  intros Hs. eapply infix_trans; [|apply line_infix].
  - apply (infix_join NL). apply elem_of_lookup_imap_2, Hs.
  - unfold_lines. unfold scriptSections. elem_search.
Qed.

(** The fields the export reads all occur in the text. *)
Lemma exported_fields_occur :
  Forall (fun v => infix v (formatBlueprintText bp)) (exportedFieldTexts bp).
Proof.
  unfold exportedFieldTexts. cbv zeta.
  repeat (apply Forall_app; split).
  - forall_cases; in_text.
  - apply Forall_flat_map, Forall_forall. intros s Hs.
    forall_cases.
    + eapply infix_trans with (trendSignalLine s); [|line_in_text].
      unfold trendSignalLine. infix_search.
    + eapply infix_trans with (trendSignalLine s); [|line_in_text].
      unfold trendSignalLine. infix_search.
  - apply Forall_flat_map, Forall_forall. intros s Hs.
    forall_cases;
      (eapply infix_trans with (outlineLine s); [|line_in_text]);
      unfold outlineLine; infix_search.
  - apply Forall_flat_map, Forall_forall. intros s Hs.
    apply list_elem_of_lookup in Hs as [i Hs].
    pose proof (scriptSection_in_text i s Hs) as Hsec.
    repeat (apply Forall_cons; split).
    + eapply infix_trans; [|exact Hsec]. unfold scriptSection. infix_search.
    + eapply infix_trans; [|exact Hsec]. unfold scriptSection. infix_search.
    + eapply infix_trans; [|exact Hsec]. unfold scriptSection. infix_search.
    + apply Forall_forall. intros p Hp.
      eapply infix_trans; [|exact Hsec].
      eapply infix_trans; [apply (infix_join (NL ++ lit "- ")), Hp|].
      unfold scriptSection. infix_search.
  - forall_cases; in_text.
  - apply Forall_forall. intros k Hk.
    eapply infix_trans; [apply (infix_join (lit ", ")), Hk|].
    line_in_text.
  - apply Forall_flat_map, Forall_forall. intros t Ht.
    forall_cases;
      (eapply infix_trans with (checklistLine t); [|line_in_text]);
      unfold checklistLine; infix_search.
  - forall_cases; in_text.
  - apply Forall_forall. intros w Hw.
    eapply infix_trans with (bulletLine w); [|line_in_text].
    unfold bulletLine. infix_search.
  - apply Forall_forall. intros w Hw.
    eapply infix_trans with (bulletLine w); [|line_in_text].
    unfold bulletLine. infix_search.
  - apply Forall_forall. intros w Hw.
    eapply infix_trans with (bulletLine w); [|line_in_text].
    unfold bulletLine. infix_search.
Qed.

End ExportSerialisation.

(** The text is a function of the exported view. *)
Lemma export_reads_view (bp bp' : VideoBlueprint.t) :
  TextExport.exportedView bp = TextExport.exportedView bp' ->
  TextExport.formatBlueprintText bp = TextExport.formatBlueprintText bp'.
Proof.
  intros H. unfold TextExport.exportedView in H. cbv zeta in H.
  injection H as Htopic Haud Htone Hlen Hangle Hpos Htrend Hout Hscript
    Htitle Hdesc Htags Hcheck Hopt Hthumb Hcta Hwin Hcomm Hcross.
  unfold TextExport.formatBlueprintText, TextExport.formatBlueprintLines,
    TextExport.scriptSections.
  cbv zeta.
  rewrite Htopic, Haud, Htone, Hlen, Hangle, Hpos, Hscript, Htitle, Hdesc,
    Htags, Hopt, Hthumb, Hcta, Hwin, Hcomm, Hcross.
  rewrite (map_factor TextExport.trendSignalLine
             (fun s => (TrendSignal.headline s, TrendSignal.rationale s))
             (fun p => lit "- " ++ p.1 ++ lit ": " ++ p.2)
             _ _ (fun _ => eq_refl) Htrend).
  rewrite (map_factor TextExport.outlineLine
             (fun s => (OutlineSection.title s,
                        OutlineSection.estimatedDuration s,
                        OutlineSection.purpose s))
             (fun p => lit "- " ++ p.1.1 ++ lit " ("
                         ++ numberToString p.1.2 ++ lit " min): " ++ p.2)
             _ _ (fun _ => eq_refl) Hout).
  rewrite (map_factor TextExport.checklistLine
             (fun t => (ChecklistTask.title t, ChecklistTask.phase t,
                        ChecklistTask.owner t))
             (fun p => lit "- [ ] " ++ p.1.1 ++ lit " ("
                         ++ p.1.2 ++ lit ", owner " ++ p.2 ++ lit ")")
             _ _ (fun _ => eq_refl) Hcheck).
  reflexivity.
Qed.

(** C7, amended.  For every blueprint, the export serializes the topic, the
    audience, the tone, the length, the narrative angle, the call to action,
    the positioning statement, headline and rationale of every trend
    signal, title, duration and purpose of every outline section, every
    field of every script section, the SEO title, description and keyword
    tags, title, phase and owner of every checklist task, the optimized
    title and thumbnail concept of the upload package, and the three lists
    of the publishing plan: each of them occurs in the text.  The text
    depends on nothing else: blueprints that agree on these fields export
    to the same text, whatever their hash tags, chapter markers, audience
    questions, competitor watch, timeline, asset requests and remaining
    upload fields are. *)
Theorem formatBlueprintText_serialises_view (bp : VideoBlueprint.t) :
  Forall (fun v => infix v (TextExport.formatBlueprintText bp))
         (TextExport.exportedFieldTexts bp)
  /\ forall bp',
       TextExport.exportedView bp = TextExport.exportedView bp' ->
       TextExport.formatBlueprintText bp = TextExport.formatBlueprintText bp'.
Proof.
  split; [apply exported_fields_occur|apply export_reads_view].
Qed.

Lemma formatBlueprintText_serialises_view_witness :
  TextExport.formatBlueprintText Sample.coldBrewBlueprint
  = TextExport.formatBlueprintText Sample.coldBrewBlueprintVariant.
Proof.
  apply (proj2 (formatBlueprintText_serialises_view Sample.coldBrewBlueprint)
           Sample.coldBrewBlueprintVariant).
  reflexivity.
Defined.

(** ** The form and the clipboard *)

(** C8.  After a change of the minutes input, the form holds 9 when the
    value string of the input is empty and the numeric value of the string
    otherwise; [handleGenerate] hands exactly that number to the engine,
    without clamping it, and stores what the engine returns for it. *)
Theorem minutes_reach_engine_unclamped
    (number : Type) (StringToNumber : jsstring -> number)
    (ofZ : Z -> number) (numberIsTruthy : number -> bool)
    (engine : VideoBrief.t number -> VideoBlueprint.t)
    (value : jsstring) (st : Page.PageState number) :
  let form' :=
    Page.onMinutesChange number StringToNumber ofZ numberIsTruthy value
      (Page.form number st) in
  let st' := {| Page.form := form';
                Page.blueprint := Page.blueprint number st;
                Page.isThinking := Page.isThinking number st |} in
  Page.minutes number form'
    = match value with
      | [] => ofZ 9%Z
      | _ :: _ => StringToNumber value
      end
  /\ VideoBrief.minutes (Page.generateArgument number form')
     = Page.minutes number form'
  /\ Page.blueprint number (Page.handleGenerate number engine st')
     = Some (engine (Page.generateArgument number form')).
Proof.
  simpl. split; [|split; reflexivity].
  unfold Page.logicalOr. simpl. by destruct value.
Qed.

(** Values outside the bound of 5 to 25, and the string "0", reach the
    engine as they are; only the empty string becomes 9. *)
Example minutes_examples :
  map (fun value =>
         VideoBrief.minutes
           (Page.generateArgument (option Z)
              (Page.onMinutesChange (option Z) Sample.wholeNumber Some
                 Sample.wholeNumberIsTruthy value Sample.defaultForm)))
      [lit "100"; lit "3"; lit "0"; lit ""; lit "12"]
  = [Some 100; Some 3; Some 0; Some 9; Some 12]%Z.
Proof. reflexivity. Qed.

(** C10.  When [navigator.clipboard] is absent (undefined or null),
    [copyToClipboard] does not throw: it returns undefined and attempts no
    write. *)
Theorem copyToClipboard_without_clipboard
    (env : Clipboard.environment) (text : jsstring) :
  Clipboard.navigator env = Some Clipboard.ClipboardUndefined
  \/ Clipboard.navigator env = Some Clipboard.ClipboardNull ->
  Clipboard.copyToClipboard env text
  = (Clipboard.Return Clipboard.Undefined, []).
Proof.
  unfold Clipboard.copyToClipboard. by intros [-> | ->].
Qed.

Lemma copyToClipboard_without_clipboard_witness :
  Clipboard.copyToClipboard Sample.noClipboard (lit "YouTube Blueprint")
  = (Clipboard.Return Clipboard.Undefined, []).
Proof.
  apply (copyToClipboard_without_clipboard Sample.noClipboard).
  left. reflexivity.
Defined.

(** With a clipboard in place the write is attempted with the given text. *)
Example copyToClipboard_writes :
  Clipboard.copyToClipboard Sample.workingClipboard (lit "plan")
  = (Clipboard.Return (Clipboard.Promise Clipboard.Resolves), [lit "plan"]).
Proof. reflexivity. Qed.

(** ** The outline allocator *)

Section AllocatorFacts.

Import Engine.

Implicit Types (l d r ws : list Z) (arch : list Archetype.t).

Lemma sumZ_app l1 l2 : sumZ (l1 ++ l2) = (sumZ l1 + sumZ l2)%Z.
Proof.
  unfold sumZ. induction l1 as [|x l1 IH]; simpl; [done|].
  rewrite IH. lia.
Qed.

Lemma sumZ_cons (x : Z) l : sumZ (x :: l) = (x + sumZ l)%Z.
Proof. reflexivity. Qed.

Lemma sumZ_alter_succ l i :
  (i < length l)%nat -> sumZ (alter Z.succ i l) = (sumZ l + 1)%Z.
Proof.
  revert i. induction l as [|x l IH]; intros i Hi; simpl in Hi; [lia|].
  destruct i as [|i].
  - change (alter Z.succ 0%nat (x :: l)) with (Z.succ x :: l).
    rewrite !sumZ_cons. lia.
  - change (alter Z.succ (S i) (x :: l)) with (x :: alter Z.succ i l).
    rewrite !sumZ_cons, IH by lia. lia.
Qed.

Lemma argmaxFrom_bound l best bestValue i :
  (best < i)%nat -> (argmaxFrom best bestValue i l < i + length l)%nat.
Proof.
  revert best bestValue i.
  induction l as [|x l IH]; intros best bestValue i Hbest; simpl; [lia|].
  destruct (bestValue <? x)%Z.
  - specialize (IH i x (S i)). lia.
  - specialize (IH best bestValue (S i)). lia.
Qed.

Lemma argmax_bound l : l <> [] -> (argmax l < length l)%nat.
Proof.
  destruct l as [|x l]; [done|]. intros _. simpl.
  pose proof (argmaxFrom_bound l 0 x 1). lia.
Qed.

Lemma length_distribute k d r : length (distribute k d r) = length d.
Proof.
  revert d r. induction k as [|k IH]; intros d r; simpl; [done|].
  by rewrite IH, length_alter.
Qed.

(** Every leftover minute lands in exactly one section. *)
Lemma sumZ_distribute k d r :
  length d = length r -> d <> [] ->
  sumZ (distribute k d r) = (sumZ d + Z.of_nat k)%Z.
Proof.
  revert d r. induction k as [|k IH]; intros d r Hlen Hne; simpl; [lia|].
  assert (argmax r < length d)%nat as Hi.
  { rewrite Hlen. apply argmax_bound. intros ->. by destruct d. }
  rewrite IH.
  - rewrite sumZ_alter_succ by done. lia.
  - by rewrite length_alter, length_insert.
  - intros Heq. apply (f_equal length) in Heq.
    rewrite length_alter in Heq. simpl in Heq. lia.
Qed.

Lemma floors_below_quota (minutes total : Z) ws :
  (0 < total)%Z ->
  (sumZ (map (fun w => minutes * w / total) ws) * total
   <= minutes * sumZ ws)%Z.
Proof.
  intros Htotal. unfold sumZ.
  induction ws as [|w ws IH]; simpl; [lia|].
  pose proof (Z.mul_div_le (minutes * w) total Htotal). lia.
Qed.

Lemma sumZ_positive ws :
  ws <> [] -> Forall (fun w => 0 < w)%Z ws -> (0 < sumZ ws)%Z.
Proof.
  intros Hne Hpos. unfold sumZ.
  induction Hpos as [|w ws Hw Hpos IH]; [done|]. simpl.
  destruct ws as [|w' ws]; simpl in *; [lia|].
  assert (0 < w' + foldr Z.add 0 ws)%Z by (by apply IH). lia.
Qed.

Lemma length_allocate minutes ws : length (allocate minutes ws) = length ws.
Proof. unfold allocate. by rewrite length_distribute, length_map. Qed.

(** Largest-remainder rounding is exact: the minutes of the sections add up
    to the runtime, whatever the runtime and the (positive) weights. *)
Lemma sumZ_allocate minutes ws :
  ws <> [] -> Forall (fun w => 0 < w)%Z ws ->
  sumZ (allocate minutes ws) = minutes.
Proof.
  intros Hne Hpos. unfold allocate.
  pose proof (sumZ_positive ws Hne Hpos) as Htotal.
  pose proof (floors_below_quota minutes (sumZ ws) ws Htotal) as Hle.
  rewrite sumZ_distribute.
  - assert (sumZ (map (fun w => minutes * w / sumZ ws) ws) <= minutes)%Z
      by nia.
    lia.
  - by rewrite !length_map.
  - intros Heq. apply (f_equal length) in Heq.
    rewrite length_map in Heq. by destruct ws.
Qed.

Lemma remainders_sum (minutes total : Z) ws :
  (0 < total)%Z ->
  (sumZ (map (fun w => (minutes * w) mod total) ws)
   = minutes * sumZ ws
     - total * sumZ (map (fun w => minutes * w / total) ws))%Z.
Proof.
  intros Htotal. induction ws as [|w ws IH]; cbn [map].
  - unfold sumZ. simpl. lia.
  - rewrite !sumZ_cons, IH.
    pose proof (Z.div_mod (minutes * w) total ltac:(lia)). lia.
Qed.

Lemma remainders_below (minutes total : Z) ws :
  (0 < total)%Z -> ws <> [] ->
  (sumZ (map (fun w => (minutes * w) mod total) ws)
   < Z.of_nat (length ws) * total)%Z.
Proof.
  intros Htotal Hne. destruct ws as [|w0 ws]; [done|]. clear Hne.
  revert w0. induction ws as [|w ws IH]; intros w0.
  - cbn [map length]. rewrite sumZ_cons. unfold sumZ. simpl.
    pose proof (Z.mod_pos_bound (minutes * w0) total Htotal). lia.
  - specialize (IH w). cbn [map length] in *. rewrite sumZ_cons.
    pose proof (Z.mod_pos_bound (minutes * w0) total Htotal). lia.
Qed.

(** The leftover of the rounding is smaller than the number of sections, so
    no section receives more than one extra minute. *)
Lemma leftover_below_count minutes ws :
  ws <> [] -> Forall (fun w => 0 < w)%Z ws ->
  (0 <= minutes - sumZ (map (fun w => minutes * w / sumZ ws) ws)
   < Z.of_nat (length ws))%Z.
Proof.
  intros Hne Hpos.
  pose proof (sumZ_positive ws Hne Hpos) as Htotal.
  pose proof (floors_below_quota minutes (sumZ ws) ws Htotal) as Hle.
  pose proof (remainders_sum minutes (sumZ ws) ws Htotal) as Hsum.
  pose proof (remainders_below minutes (sumZ ws) ws Htotal Hne) as Hlt.
  split; nia.
Qed.

Lemma allocate_single minutes w :
  (0 < w)%Z -> allocate minutes [w] = [minutes].
Proof.
  intros Hw. unfold allocate. simpl. unfold sumZ. simpl.
  rewrite !Z.add_0_r, Z.div_mul by lia.
  by rewrite Z.sub_diag.
Qed.

Lemma weights_positive arch : Forall (fun w => 0 < w)%Z (weights arch).
Proof.
  unfold weights. apply Forall_fmap, Forall_forall. intros a _. simpl. lia.
Qed.

Lemma weights_nonempty arch : arch <> [] -> weights arch <> [].
Proof. by destruct arch. Qed.

Lemma length_removeFirstOfWeight w arch :
  w ∈ weights arch ->
  S (length (removeFirstOfWeight w arch)) = length arch.
Proof.
  induction arch as [|a arch IH]; intros Hin.
  - by apply elem_of_nil in Hin.
  - cbn [removeFirstOfWeight].
    destruct (Z.eqb_spec (Z.pos (Archetype.weight a)) w) as [Heq|Hne]; [done|].
    cbn [length]. f_equal. apply IH.
    apply elem_of_cons in Hin as [Hin|Hin]; [congruence|done].
Qed.

Lemma foldr_min_elem (w : Z) ws : foldr Z.min w ws ∈ w :: ws.
Proof.
  induction ws as [|x ws IH]; simpl; [left|].
  destruct (Z.min_spec x (foldr Z.min w ws)) as [[_ ->]|[_ ->]].
  - right. left.
  - apply elem_of_cons in IH as [->|IH]; [left|by do 2 right].
Qed.

Lemma minWeight_elem arch : arch <> [] -> minWeight arch ∈ weights arch.
Proof.
  unfold minWeight. destruct arch as [|a arch]; [done|]. intros _.
  simpl. apply foldr_min_elem.
Qed.

Lemma length_dropLowest arch :
  arch <> [] -> S (length (dropLowest arch)) = length arch.
Proof.
  intros Hne. unfold dropLowest. rewrite length_rev.
  rewrite length_removeFirstOfWeight; [by rewrite length_rev|].
  unfold weights. rewrite map_rev. apply list_elem_of_In.
  rewrite <- in_rev. apply list_elem_of_In. by apply minWeight_elem.
Qed.

Lemma meetsFloor_single minutes a :
  (1 <= minutes)%Z -> meetsFloor (allocate minutes (weights [a])) = true.
Proof.
  intros Hm. simpl. rewrite allocate_single by lia. simpl.
  rewrite andb_true_r. by apply Z.leb_le.
Qed.

(** The archetypes that survive the floor check: some are left, and their
    allocation gives every section at least one minute. *)
Lemma fitArchetypes_meets_floor fuel minutes arch :
  (1 <= minutes)%Z -> arch <> [] -> (length arch <= S fuel)%nat ->
  fitArchetypes fuel minutes arch <> []
  /\ meetsFloor (allocate minutes (weights (fitArchetypes fuel minutes arch)))
     = true.
Proof.
  intros Hm. revert arch.
  induction fuel as [|fuel IH]; intros arch Hne Hlen; simpl.
  - destruct arch as [|a [|b arch]]; simpl in Hlen; [done| |lia].
    split; [done|]. by apply meetsFloor_single.
  - destruct (meetsFloor (allocate minutes (weights arch))) eqn:Hfloor;
      [done|].
    pose proof (length_dropLowest arch Hne) as Hdrop.
    apply IH; [|lia].
    intros Hempty. rewrite Hempty in Hdrop. simpl in Hdrop.
    destruct arch as [|a [|b arch]]; simpl in Hdrop; [done| |lia].
    rewrite meetsFloor_single in Hfloor by done. discriminate.
Qed.

End AllocatorFacts.

(** ** Chapter timestamps *)

Section TimestampFacts.

Import Engine Timestamp.

Lemma digitValue_digit (k : N) :
  (k <= 9)%N -> digitValue (48 + k)%N = Some (Z.of_N k).
Proof.
  intros Hk. unfold digitValue.
  destruct ((48 <=? 48 + k)%N && (48 + k <=? 57)%N) eqn:E.
  - f_equal. lia.
  - apply andb_false_iff in E as [E|E]; apply N.leb_gt in E; lia.
Qed.

Lemma parseDigits_digit (k : N) (acc : Z) (rest : jsstring) :
  (k <= 9)%N ->
  parseDigits acc ((48 + k)%N :: rest)
  = parseDigits (10 * acc + Z.of_N k) rest.
Proof. intros Hk. cbn [parseDigits]. by rewrite digitValue_digit. Qed.

Local Ltac digit_case IH k d p :=
  match goal with
  | |- parseDigits _ (digits ?u) = _ =>
      change (digits u) with ((48 + k)%N :: digits d)
  end;
  rewrite (parseDigits_digit k) by lia;
  cbn [Pos.of_uint_acc]; rewrite <- IH; f_equal; lia.

Lemma parseDigits_acc (d : Decimal.uint) (p : positive) :
  parseDigits (Z.pos p) (digits d) = Some (Z.pos (Pos.of_uint_acc d p)).
Proof.
  revert p. induction d as [|d IH|d IH|d IH|d IH|d IH|d IH|d IH|d IH|d IH|d IH];
    intros p.
  - reflexivity.
  - digit_case IH 0%N d p.
  - digit_case IH 1%N d p.
  - digit_case IH 2%N d p.
  - digit_case IH 3%N d p.
  - digit_case IH 4%N d p.
  - digit_case IH 5%N d p.
  - digit_case IH 6%N d p.
  - digit_case IH 7%N d p.
  - digit_case IH 8%N d p.
  - digit_case IH 9%N d p.
Qed.

Lemma parseDigits_zero (d : Decimal.uint) :
  parseDigits 0 (digits d) = Some (Z.of_N (Pos.of_uint d)).
Proof.
  induction d as [|d IH|d IH|d IH|d IH|d IH|d IH|d IH|d IH|d IH|d IH];
    [reflexivity|exact IH|..];
    cbn [digits parseDigits Pos.of_uint]; apply parseDigits_acc.
Qed.

Lemma digits_no_colon (d : Decimal.uint) :
  forallb (fun c => negb (isColon c)) (digits d) = true.
Proof. induction d; simpl; auto. Qed.

Lemma digits_nonempty (d : Decimal.uint) : d <> Decimal.Nil -> digits d <> [].
Proof. by destruct d. Qed.

(** The text of a non-negative number reads back as that number. *)
Lemma parseDecimal_numberToString (n : Z) :
  (0 <= n)%Z -> parseDecimal (numberToString n) = Some n.
Proof.
  intros Hn. unfold numberToString. destruct n as [|p|p]; [reflexivity| |lia].
  cbn [Z.to_int].
  pose proof (digits_nonempty _ (DecimalPos.Unsigned.to_uint_nonnil p)) as Hne.
  unfold parseDecimal. destruct (digits (Pos.to_uint p)) eqn:E; [done|].
  rewrite <- E, parseDigits_zero, DecimalPos.Unsigned.of_to. reflexivity.
Qed.

Lemma numberToString_no_colon (n : Z) :
  (0 <= n)%Z ->
  forallb (fun c => negb (isColon c)) (numberToString n) = true.
Proof.
  intros Hn. unfold numberToString.
  destruct (Z.to_int n) eqn:E; [apply digits_no_colon|].
  destruct n; simpl in E; try discriminate. lia.
Qed.

(** A formatted timestamp reads back as the start of its section, in
    seconds. *)
Lemma timestampSeconds_formatTimestamp (m : Z) :
  (0 <= m)%Z -> timestampSeconds (formatTimestamp m) = Some (60 * m)%Z.
Proof.
  intros Hm. unfold timestampSeconds, formatTimestamp.
  change (lit ":00") with (58%N :: [48; 48]%N).
  rewrite (split_at_separator isColon) by
    (by apply numberToString_no_colon || reflexivity).
  rewrite (split_no_separator isColon [48; 48]%N) by reflexivity.
  rewrite parseDecimal_numberToString by done.
  change (parseDecimal [48; 48]%N) with (Some 0%Z).
  f_equal. lia.
Qed.

End TimestampFacts.

(** ** The assembled blueprint *)

Section EngineFacts.

Import Engine Timestamp.

Variable store : Store.t.
Variable phr : Phrasing.t.

Lemma clampMinutes_bounds (m : Z) :
  (MIN_MINUTES <= clampMinutes m <= MAX_MINUTES)%Z.
Proof. unfold clampMinutes, MIN_MINUTES, MAX_MINUTES. lia. Qed.

Lemma clampMinutes_inside (m : Z) :
  (MIN_MINUTES <= m <= MAX_MINUTES)%Z -> clampMinutes m = m.
Proof. unfold clampMinutes, MIN_MINUTES, MAX_MINUTES. lia. Qed.

Lemma bestCategory_elem brief best bestScore cats cat :
  bestCategory brief best bestScore cats = Some cat ->
  best = Some cat \/ cat ∈ cats.
Proof.
  revert best bestScore.
  induction cats as [|c cats IH]; intros best bestScore; simpl.
  - by left.
  - destruct (bestScore <? score brief c)%nat; intros H; apply IH in H.
    + destruct H as [[= ->]|H]; right; [left|by right].
    + destruct H as [H|H]; [by left|]. right. by right.
Qed.

Lemma resolveCategory_elem brief :
  resolveCategory store brief
    ∈ Store.fallback store :: Store.categories store.
Proof.
  unfold resolveCategory.
  destruct (bestCategory brief None 0 (Store.categories store)) as [cat|]
    eqn:E; [|left].
  apply bestCategory_elem in E as [E|E]; [done|by right].
Qed.

Lemma resolveCategory_archetypes brief :
  wellFormed store -> Category.archetypes (resolveCategory store brief) <> [].
Proof.
  intros Hwf. unfold wellFormed in Hwf. rewrite Forall_forall in Hwf.
  apply Hwf, resolveCategory_elem.
Qed.

Lemma zip_with_durations {A} (f : A -> Z -> OutlineSection.t)
    (l : list A) (ds : list Z) :
  (forall a d, OutlineSection.estimatedDuration (f a d) = d) ->
  length l = length ds ->
  map OutlineSection.estimatedDuration (zip_with f l ds) = ds.
Proof.
  intros Hf. revert ds.
  induction l as [|a l IH]; intros [|d ds] Hlen; simpl in *; try done.
  rewrite Hf, IH by lia. done.
Qed.

Lemma Forall_map_durations (P : Z -> Prop) (l : list OutlineSection.t) :
  Forall P (map OutlineSection.estimatedDuration l) ->
  Forall (fun s => P (OutlineSection.estimatedDuration s)) l.
Proof.
  induction l as [|s l IH]; simpl; intros H; [constructor|].
  inversion H; subst. constructor; auto.
Qed.

Lemma zip_with_titles {A B} (f : A -> B -> OutlineSection.t)
    (title : A -> jsstring) (l : list A) (ds : list B) :
  (forall a d, OutlineSection.title (f a d) = title a) ->
  length l = length ds ->
  map OutlineSection.title (zip_with f l ds) = map title l.
Proof.
  intros Hf. revert ds.
  induction l as [|a l IH]; intros [|d ds] Hlen; simpl in *; try done.
  rewrite Hf, IH by lia. done.
Qed.

(** The durations of the outline are the allocation for the archetypes
    that were kept. *)
Lemma allocateOutline_durations brief cat :
  map OutlineSection.estimatedDuration (allocateOutline phr brief cat)
  = allocate (VideoBrief.minutes brief)
      (weights (fitArchetypes (length (Category.archetypes cat))
                  (VideoBrief.minutes brief) (Category.archetypes cat))).
Proof.
  unfold allocateOutline. cbv zeta. apply zip_with_durations; [done|].
  rewrite length_allocate. unfold weights. by rewrite length_map.
Qed.

Lemma fold_left_durations (outline : list OutlineSection.t) (acc : Z) :
  fold_left (fun acc section =>
               (acc + OutlineSection.estimatedDuration section)%Z)
            outline acc
  = (acc + sumZ (map OutlineSection.estimatedDuration outline))%Z.
Proof.
  revert acc. induction outline as [|s outline IH]; intros acc.
  - unfold sumZ. simpl. lia.
  - cbn [fold_left map]. rewrite IH, sumZ_cons. lia.
Qed.

(** For every brief the outline adds up to the clamped runtime, and every
    section lasts at least a minute. *)
Lemma outline_sum_and_floor (raw : VideoBrief.t Z) :
  wellFormed store ->
  let outline :=
    VideoBlueprint.outline (generateVideoBlueprint store phr raw) in
  sumZ (map OutlineSection.estimatedDuration outline)
  = clampMinutes (VideoBrief.minutes raw)
  /\ Forall (fun s => (1 <= OutlineSection.estimatedDuration s)%Z) outline
  /\ outline <> [].
Proof.
  intros Hwf. cbn [generateVideoBlueprint VideoBlueprint.outline].
  set (brief := normalize phr raw).
  set (cat := resolveCategory store brief).
  assert (VideoBrief.minutes brief = clampMinutes (VideoBrief.minutes raw))
    as Hmin by reflexivity.
  pose proof (clampMinutes_bounds (VideoBrief.minutes raw)) as Hbound.
  unfold MIN_MINUTES in Hbound.
  pose proof (resolveCategory_archetypes brief Hwf) as Hne. fold cat in Hne.
  destruct (fitArchetypes_meets_floor
              (length (Category.archetypes cat)) (VideoBrief.minutes brief)
              (Category.archetypes cat)) as [Hkept Hfloor];
    [lia|done|lia|].
  pose proof (allocateOutline_durations brief cat) as Hdur.
  split; [|split].
  - rewrite Hdur, sumZ_allocate; [done|by apply weights_nonempty|].
    apply weights_positive.
  - assert (Forall (fun d => (1 <= d)%Z)
              (map OutlineSection.estimatedDuration
                 (allocateOutline phr brief cat))) as Hall.
    { rewrite Hdur. unfold meetsFloor in Hfloor.
      rewrite forallb_forall in Hfloor. apply Forall_forall.
      intros d Hd. apply list_elem_of_In, Hfloor in Hd. by apply Z.leb_le. }
    by apply Forall_map_durations.
  - intros Hnil. apply (f_equal (map OutlineSection.estimatedDuration)) in Hnil.
    rewrite Hdur in Hnil. apply (f_equal length) in Hnil.
    rewrite length_allocate in Hnil. unfold weights in Hnil.
    rewrite length_map in Hnil. simpl in Hnil.
    by destruct (fitArchetypes _ _ _).
Qed.

Lemma length_chapterMarkers start outline :
  length (chapterMarkers start outline) = length outline.
Proof.
  revert start. induction outline as [|s outline IH]; intros start; simpl;
    [done|by rewrite IH].
Qed.

Lemma chapterMarkers_labels start outline :
  map ChapterMarker.label (chapterMarkers start outline)
  = map OutlineSection.title outline.
Proof.
  revert start. induction outline as [|s outline IH]; intros start; simpl;
    [done|by rewrite IH].
Qed.

(** No marker of an outline that starts at [start] lies before [start]. *)
Lemma chapterMarkers_not_before start outline j b :
  (0 <= start)%Z ->
  Forall (fun s => (1 <= OutlineSection.estimatedDuration s)%Z) outline ->
  chapterMarkers start outline !! j = Some b ->
  exists tb, timestampSeconds (ChapterMarker.timestamp b) = Some tb
             /\ (60 * start <= tb)%Z.
Proof.
  intros Hstart Hall. revert start j Hstart.
  induction Hall as [|s outline Hs Hall IH]; intros start j Hstart Hb;
    simpl in Hb; [done|].
  destruct j as [|j]; simpl in Hb.
  - injection Hb as <-. exists (60 * start)%Z. cbn [ChapterMarker.timestamp].
    split; [by apply timestampSeconds_formatTimestamp|lia].
  - destruct (IH (start + OutlineSection.estimatedDuration s)%Z j
                ltac:(lia) Hb) as (tb & Htb & Hle).
    exists tb. split; [done|lia].
Qed.

(** Later markers carry strictly later timestamps. *)
Lemma chapterMarkers_increasing start outline i j a b :
  (0 <= start)%Z ->
  Forall (fun s => (1 <= OutlineSection.estimatedDuration s)%Z) outline ->
  (i < j)%nat ->
  chapterMarkers start outline !! i = Some a ->
  chapterMarkers start outline !! j = Some b ->
  exists ta tb,
    timestampSeconds (ChapterMarker.timestamp a) = Some ta
    /\ timestampSeconds (ChapterMarker.timestamp b) = Some tb
    /\ (ta < tb)%Z.
Proof.
  intros Hstart Hall. revert start i j Hstart.
  induction Hall as [|s outline Hs Hall IH]; intros start i j Hstart Hij Ha Hb;
    simpl in Ha, Hb; [done|].
  destruct j as [|j]; [lia|]. simpl in Hb.
  destruct i as [|i]; simpl in Ha.
  - injection Ha as <-. cbn [ChapterMarker.timestamp].
    destruct (chapterMarkers_not_before
                (start + OutlineSection.estimatedDuration s)%Z outline j b
                ltac:(lia) Hall Hb) as (tb & Htb & Hle).
    exists (60 * start)%Z, tb.
    split; [by apply timestampSeconds_formatTimestamp|]. split; [done|lia].
  - apply (IH (start + OutlineSection.estimatedDuration s)%Z i j);
      [lia|lia|done|done].
Qed.

End EngineFacts.

(** C1.  For every brief whose minutes lie inside the supported bound, the
    estimated durations of the outline that [generateVideoBlueprint]
    returns add up exactly to the requested minutes, as the page sums
    them in [outlineDurationTotal]. *)
Theorem outline_durations_sum_to_minutes
    (store : Store.t) (phr : Phrasing.t) (brief : VideoBrief.t Z) :
  Engine.wellFormed store ->
  (Engine.MIN_MINUTES <= VideoBrief.minutes brief <= Engine.MAX_MINUTES)%Z ->
  Page.outlineDurationTotal
    (Some (Engine.generateVideoBlueprint store phr brief))
  = VideoBrief.minutes brief.
Proof.
  intros Hwf Hbound. unfold Page.outlineDurationTotal.
  rewrite fold_left_durations.
  destruct (outline_sum_and_floor store phr brief Hwf) as [Hsum _].
  cbv zeta in Hsum. rewrite Hsum, clampMinutes_inside by done. lia.
Qed.

Lemma outline_durations_sum_to_minutes_witness :
  Page.outlineDurationTotal
    (Some (Engine.generateVideoBlueprint Sample.store Sample.phrasing
             Sample.coldBrewBrief))
  = 10%Z.
Proof.
  apply (outline_durations_sum_to_minutes Sample.store Sample.phrasing
           Sample.coldBrewBrief).
  - repeat constructor; discriminate.
  - unfold Engine.MIN_MINUTES, Engine.MAX_MINUTES. simpl. lia.
Defined.

(** Five minutes over the generic archetypes: the lowest-weighted one is
    dropped, the other four share the runtime. *)
Example outline_five_minutes :
  map (fun s => (OutlineSection.title s, OutlineSection.estimatedDuration s))
      (VideoBlueprint.outline
         (Engine.generateVideoBlueprint Sample.store Sample.phrasing
            (Sample.withMinutes 5 Sample.coldBrewBrief)))
  = [(lit "Context", 1%Z); (lit "Core teaching", 2%Z); (lit "Proof", 1%Z);
     (lit "Recap", 1%Z)].
Proof. vm_compute. reflexivity. Qed.

(** The runtimes of the supported bound, one by one, on the sample store. *)
Example outline_durations_across_bound :
  forallb
    (fun m =>
       (Page.outlineDurationTotal
          (Some (Engine.generateVideoBlueprint Sample.store Sample.phrasing
                   (Sample.withMinutes m Sample.coldBrewBrief))) =? m)%Z)
    (map Z.of_nat (seq 5 21))
  = true.
Proof. vm_compute. reflexivity. Qed.

(** C2.  For every brief the script of the blueprint has as many sections
    as the outline, and the script section at each index carries the title
    of the outline section at that index. *)
Theorem script_follows_outline
    (store : Store.t) (phr : Phrasing.t) (brief : VideoBrief.t Z) :
  let bp := Engine.generateVideoBlueprint store phr brief in
  length (VideoBlueprint.script bp) = length (VideoBlueprint.outline bp)
  /\ forall i : nat,
       ScriptSection.title <$> (VideoBlueprint.script bp !! i)
       = OutlineSection.title <$> (VideoBlueprint.outline bp !! i).
Proof.
  cbn [Engine.generateVideoBlueprint VideoBlueprint.script
         VideoBlueprint.outline].
  unfold Engine.composeScript. split.
  - apply length_imap.
  - intros i. rewrite list_lookup_imap.
    by destruct (_ !! i).
Qed.

(** C3.  For every brief the chapter markers of the blueprint are one per
    outline section, the first marker reads 0:00, and the timestamps are
    strictly increasing along the list. *)
Theorem chapter_markers_follow_outline
    (store : Store.t) (phr : Phrasing.t) (brief : VideoBrief.t Z) :
  Engine.wellFormed store ->
  let bp := Engine.generateVideoBlueprint store phr brief in
  let markers := SeoPackage.chapterMarkers (VideoBlueprint.seo bp) in
  length markers = length (VideoBlueprint.outline bp)
  /\ ChapterMarker.timestamp <$> head markers = Some (lit "0:00")
  /\ forall (i j : nat) (a b : ChapterMarker.t),
       (i < j)%nat -> markers !! i = Some a -> markers !! j = Some b ->
       exists ta tb,
         Timestamp.timestampSeconds (ChapterMarker.timestamp a) = Some ta
         /\ Timestamp.timestampSeconds (ChapterMarker.timestamp b) = Some tb
         /\ (ta < tb)%Z.
Proof.
  intros Hwf bp markers.
  destruct (outline_sum_and_floor store phr brief Hwf) as (_ & Hfloor & Hne).
  cbv zeta in Hfloor, Hne. fold bp in Hfloor, Hne.
  assert (markers = Engine.chapterMarkers 0 (VideoBlueprint.outline bp))
    as -> by reflexivity.
  split; [apply length_chapterMarkers|]. split.
  - destruct (VideoBlueprint.outline bp); [done|reflexivity].
  - intros i j a b. by apply chapterMarkers_increasing.
Qed.

Lemma chapter_markers_follow_outline_witness :
  let markers :=
    SeoPackage.chapterMarkers
      (VideoBlueprint.seo
         (Engine.generateVideoBlueprint Sample.store Sample.phrasing
            Sample.coldBrewBrief)) in
  length markers = 5%nat
  /\ ChapterMarker.timestamp <$> head markers = Some (lit "0:00").
Proof.
  pose proof (chapter_markers_follow_outline Sample.store Sample.phrasing
                Sample.coldBrewBrief) as H.
  destruct H as (Hlen & Hfirst & _).
  - repeat constructor; discriminate.
  - split; [exact Hlen|exact Hfirst].
Defined.

(** * Further properties of the page code *)

(** ** Trimming *)

Section TrimFacts.

Implicit Types (s p r l : jsstring) (c : codeunit).

Lemma trimStart_head s c r : trimStart s = c :: r -> isWhiteSpace c = false.
Proof.
  induction s as [|d s IH]; simpl; [done|].
  destruct (isWhiteSpace d) eqn:E; [exact IH|].
  intros [= <- <-]. exact E.
Qed.

Lemma trimStart_keep c r :
  isWhiteSpace c = false -> trimStart (c :: r) = c :: r.
Proof. intros H. simpl. by rewrite H. Qed.

Lemma trimStart_skip c r :
  isWhiteSpace c = true -> trimStart (c :: r) = trimStart r.
Proof. intros H. simpl. by rewrite H. Qed.

Lemma trimStart_idem s : trimStart (trimStart s) = trimStart s.
Proof.
  destruct (trimStart s) as [|c r] eqn:E; [done|].
  apply trimStart_keep. by apply (trimStart_head s c r).
Qed.

Lemma trimStart_snoc_keep l c :
  isWhiteSpace c = false -> trimStart (l ++ [c]) = trimStart l ++ [c].
Proof.
  intros Hc. induction l as [|d l IH].
  - by apply trimStart_keep.
  - cbn [app trimStart]. by destruct (isWhiteSpace d).
Qed.

Lemma trimStart_snoc_skip l c :
  isWhiteSpace c = true ->
  trimStart (l ++ [c]) = trimStart l
  \/ trimStart (l ++ [c]) = trimStart l ++ [c].
Proof.
  intros Hc. induction l as [|d l IH].
  - left. by apply trimStart_skip.
  - cbn [app trimStart]. destruct (isWhiteSpace d); [exact IH|by right].
Qed.

Lemma trimEnd_nil : trimEnd [] = [].
Proof. reflexivity. Qed.

Lemma trimEnd_keep c r :
  isWhiteSpace c = false -> trimEnd (c :: r) = c :: trimEnd r.
Proof.
  intros Hc. unfold trimEnd. cbn [rev].
  rewrite trimStart_snoc_keep by done.
  by rewrite rev_app_distr.
Qed.

Lemma trimEnd_snoc_skip s c :
  isWhiteSpace c = true -> trimEnd (s ++ [c]) = trimEnd s.
Proof.
  intros Hc. unfold trimEnd. rewrite rev_app_distr. cbn [rev app].
  by rewrite trimStart_skip.
Qed.

Lemma trimEnd_idem s : trimEnd (trimEnd s) = trimEnd s.
Proof.
  unfold trimEnd. by rewrite rev_involutive, trimStart_idem.
Qed.

Lemma trimEnd_last s c : last (trimEnd s) = Some c -> isWhiteSpace c = false.
Proof.
  unfold trimEnd. destruct (trimStart (rev s)) as [|d r] eqn:E; [done|].
  cbn [rev]. rewrite last_snoc. intros [= <-].
  by apply (trimStart_head (rev s) d r).
Qed.

Lemma trim_skip c r : isWhiteSpace c = true -> trim (c :: r) = trim r.
Proof. intros H. unfold trim. by rewrite trimStart_skip. Qed.

Lemma trim_keep c r :
  isWhiteSpace c = false -> trim (c :: r) = c :: trimEnd r.
Proof.
  intros H. unfold trim. by rewrite trimStart_keep, trimEnd_keep.
Qed.

Lemma trim_snoc_skip s c : isWhiteSpace c = true -> trim (s ++ [c]) = trim s.
Proof.
  intros Hc. unfold trim.
  destruct (trimStart_snoc_skip s c Hc) as [-> | ->]; [done|].
  by apply trimEnd_snoc_skip.
Qed.

(** A trimmed string is empty or starts and ends with a code unit that is
    no white space, and trimming it again changes nothing. *)
Lemma trim_trimmed s :
  trim (trim s) = trim s
  /\ (forall c, head (trim s) = Some c -> isWhiteSpace c = false)
  /\ (forall c, last (trim s) = Some c -> isWhiteSpace c = false).
Proof.
  assert (trim s = trimEnd (trimStart s)) as Ht by reflexivity.
  destruct (trimStart s) as [|d r] eqn:E.
  - rewrite Ht. split; [reflexivity|]. split; intros c; done.
  - pose proof (trimStart_head s d r E) as Hd.
    rewrite trimEnd_keep in Ht by done. rewrite Ht. split; [|split].
    + rewrite trim_keep by done. by rewrite trimEnd_idem.
    + by intros c [= <-].
    + rewrite <- (trimEnd_keep d r Hd). apply trimEnd_last.
Qed.

End TrimFacts.

(** ** More on [splitKeywords] *)

Section KeywordAlgebra.

Import Keywords KeywordShape.

Implicit Types (s a b p k pad : jsstring) (c : codeunit).

Lemma split_app_separator isSep a c b :
  isSep c = true ->
  split isSep (a ++ c :: b) = split isSep a ++ split isSep b.
Proof.
  intros Hc. induction a as [|d a IH]; cbn [app split].
  - by rewrite Hc.
  - rewrite IH. destruct (isSep d); [done|].
    destruct (split isSep a) as [|p ps] eqn:E; [|done].
    by destruct (split_nonempty isSep a).
Qed.

Lemma split_snoc isSep s c :
  isSep c = false ->
  exists ps p,
    split isSep s = ps ++ [p] /\ split isSep (s ++ [c]) = ps ++ [p ++ [c]].
Proof.
  intros Hc. induction s as [|d s (ps & p & Hs & Hsc)]; cbn [app split].
  - rewrite Hc. by exists [], [].
  - rewrite Hs, Hsc. destruct (isSep d).
    + by exists ([] :: ps), p.
    + destruct ps as [|q qs]; cbn [app].
      * by exists [], (d :: p).
      * by exists ((d :: q) :: qs), p.
Qed.

Lemma length_split isSep s :
  length (split isSep s) = S (length (List.filter isSep s)).
Proof.
  induction s as [|d s IH]; cbn [split List.filter]; [done|].
  destruct (isSep d); cbn [length]; [by rewrite IH|].
  destruct (split isSep s) as [|p ps]; cbn [length] in *; lia.
Qed.

Lemma length_filter_le {A} (f : A -> bool) (l : list A) :
  (length (List.filter f l) <= length l)%nat.
Proof.
  induction l as [|x l IH]; simpl; [lia|].
  destruct (f x); simpl; lia.
Qed.

Lemma splitKeywords_nil : splitKeywords [] = [].
Proof. reflexivity. Qed.

Lemma splitKeywords_app_separator a c b :
  isSeparator c = true ->
  splitKeywords (a ++ c :: b) = splitKeywords a ++ splitKeywords b.
Proof.
  intros Hc. unfold splitKeywords.
  by rewrite split_app_separator, map_app, List.filter_app.
Qed.

Lemma splitKeywords_cons_padding c s :
  isPadding c = true -> splitKeywords (c :: s) = splitKeywords s.
Proof.
  unfold isPadding. intros Hc.
  destruct (isSeparator c) eqn:Hsep.
  - exact (splitKeywords_app_separator [] c s Hsep).
  - rewrite orb_false_r in Hc. unfold splitKeywords. cbn [split].
    rewrite Hsep. destruct (split isSeparator s) as [|p ps] eqn:E.
    + by destruct (split_nonempty isSeparator s).
    + cbn [map]. by rewrite trim_skip.
Qed.

Lemma splitKeywords_snoc_padding s c :
  isPadding c = true -> splitKeywords (s ++ [c]) = splitKeywords s.
Proof.
  unfold isPadding. intros Hc.
  destruct (isSeparator c) eqn:Hsep.
  - etransitivity; [exact (splitKeywords_app_separator s c [] Hsep)|].
    by rewrite splitKeywords_nil, app_nil_r.
  - rewrite orb_false_r in Hc. unfold splitKeywords.
    destruct (split_snoc isSeparator s c Hsep) as (ps & p & -> & ->).
    rewrite !map_app. cbn [map]. by rewrite trim_snoc_skip.
Qed.

Lemma splitKeywords_cons_letter c s :
  isPadding c = false -> splitKeywords (c :: s) <> [].
Proof.
  unfold isPadding. intros [Hws Hsep]%orb_false_iff.
  unfold splitKeywords. cbn [split]. rewrite Hsep.
  destruct (split isSeparator s) as [|p ps]; cbn [map];
    by rewrite trim_keep.
Qed.

Lemma forallb_infix (f : codeunit -> bool) s t :
  infix s t -> forallb f t = true -> forallb f s = true.
Proof.
  intros (pre & post & ->). rewrite !forallb_app.
  by intros [_ [H _]%andb_prop]%andb_prop.
Qed.

(** What [splitKeywords] returns are clean phrases. *)
Lemma splitKeywords_clean s : Forall isCleanPhrase (splitKeywords s).
Proof.
  unfold splitKeywords. apply Forall_forall. intros k Hk.
  apply list_elem_of_In, filter_In in Hk as [Hin Htruthy].
  apply in_map_iff in Hin as (p & <- & Hp).
  pose proof (split_pieces_free isSeparator s) as Hfree.
  rewrite Forall_forall in Hfree.
  specialize (Hfree p (proj2 (list_elem_of_In _ _) Hp)).
  split; [by apply truthyString_nonempty|]. split.
  - apply trim_trimmed.
  - eapply forallb_infix; [apply trim_infix|exact Hfree].
Qed.

Lemma splitKeywords_clean_phrase k :
  isCleanPhrase k -> splitKeywords k = [k].
Proof.
  intros (Hne & Htrim & Hfree). unfold splitKeywords.
  rewrite split_no_separator by done. cbn [map]. rewrite Htrim.
  destruct k; [done|reflexivity].
Qed.

Lemma splitKeywords_join ks :
  Forall isCleanPhrase ks -> splitKeywords (join (lit ", ") ks) = ks.
Proof.
  induction 1 as [|k ks Hk Hks IH]; [reflexivity|].
  destruct ks as [|k' ks].
  - by apply splitKeywords_clean_phrase.
  - rewrite join_cons. change (lit ", ") with [COMMA; 32%N] in IH |- *.
    cbn [app]. rewrite splitKeywords_app_separator by reflexivity.
    rewrite splitKeywords_cons_padding by reflexivity.
    by rewrite IH, splitKeywords_clean_phrase.
Qed.

End KeywordAlgebra.

(** X1.  No keyword that [splitKeywords] returns contains a comma or a
    line feed. *)
Theorem splitKeywords_separator_free (input k : jsstring) (c : codeunit) :
  k ∈ Keywords.splitKeywords input -> c ∈ k ->
  c <> COMMA /\ c <> LF.
Proof.
  intros Hk Hc.
  pose proof (splitKeywords_clean input) as Hclean.
  rewrite Forall_forall in Hclean.
  destruct (Hclean k Hk) as (_ & _ & Hfree).
  rewrite forallb_forall in Hfree.
  specialize (Hfree c (proj1 (list_elem_of_In _ _) Hc)).
  unfold Keywords.isSeparator in Hfree.
  apply negb_true_iff, orb_false_iff in Hfree as [H1 H2].
  apply N.eqb_neq in H1, H2. done.
Qed.

Lemma splitKeywords_separator_free_witness :
  32%N <> COMMA /\ 32%N <> LF.
Proof.
  apply (splitKeywords_separator_free (lit "cold brew, coffee")
           (lit "cold brew") 32%N).
  - apply (bool_decide_unpack _). vm_compute. exact I.
  - apply (bool_decide_unpack _). vm_compute. exact I.
Defined.

(** X2.  Every keyword that [splitKeywords] returns is trimmed: trimming it
    again changes nothing, and neither its first nor its last code unit is
    white space. *)
Theorem splitKeywords_trimmed (input k : jsstring) :
  k ∈ Keywords.splitKeywords input ->
  trim k = k
  /\ (forall c, head k = Some c -> isWhiteSpace c = false)
  /\ (forall c, last k = Some c -> isWhiteSpace c = false).
Proof.
  intros Hk.
  pose proof (splitKeywords_clean input) as Hclean.
  rewrite Forall_forall in Hclean.
  destruct (Hclean k Hk) as (_ & Htrim & _).
  rewrite <- Htrim. apply trim_trimmed.
Qed.

Lemma splitKeywords_trimmed_witness : trim (lit "coffee") = lit "coffee".
Proof.
  apply (splitKeywords_trimmed (lit "cold brew ,  coffee ") (lit "coffee")).
  apply (bool_decide_unpack _). vm_compute. exact I.
Defined.

(** X3.  Splitting distributes over a separator: the keywords of two texts
    put together with a comma or a line feed between them are the keywords
    of the first followed by the keywords of the second. *)
Theorem splitKeywords_concatenation (a b : jsstring) (c : codeunit) :
  c = COMMA \/ c = LF ->
  Keywords.splitKeywords (a ++ c :: b)
  = Keywords.splitKeywords a ++ Keywords.splitKeywords b.
Proof.
  intros Hc. apply splitKeywords_app_separator.
  by destruct Hc as [-> | ->].
Qed.

Lemma splitKeywords_concatenation_witness :
  Keywords.splitKeywords (lit "cold brew, iced" ++ LF :: lit " coffee ,")
  = Keywords.splitKeywords (lit "cold brew, iced")
    ++ Keywords.splitKeywords (lit " coffee ,").
Proof.
  apply (splitKeywords_concatenation (lit "cold brew, iced")
           (lit " coffee ,") LF).
  right. reflexivity.
Defined.

(** X4.  Round trip through the comma-separated form: joining the keywords
    of any input with ", " (as the Tags line of the export joins its tags)
    and splitting the result gives the same keywords back. *)
Theorem splitKeywords_join_round_trip (input : jsstring) :
  Keywords.splitKeywords (join (lit ", ") (Keywords.splitKeywords input))
  = Keywords.splitKeywords input.
Proof. apply splitKeywords_join, splitKeywords_clean. Qed.

(** X5.  [splitKeywords] returns no keyword exactly when the input consists
    of white space and commas only. *)
Theorem splitKeywords_empty_iff (input : jsstring) :
  Keywords.splitKeywords input = []
  <-> forallb KeywordShape.isPadding input = true.
Proof.
  induction input as [|c s IH]; [done|].
  cbn [forallb]. destruct (KeywordShape.isPadding c) eqn:Hc.
  - by rewrite splitKeywords_cons_padding, IH.
  - split; [|done]. intros H.
    by destruct (splitKeywords_cons_letter c s Hc).
Qed.

(** X6.  An input with [n] separators yields at most [n + 1] keywords. *)
Theorem splitKeywords_count (input : jsstring) :
  (length (Keywords.splitKeywords input)
   <= S (length (List.filter Keywords.isSeparator input)))%nat.
Proof.
  unfold Keywords.splitKeywords.
  etransitivity; [apply length_filter_le|].
  by rewrite length_map, length_split.
Qed.

(** X7.  White space and commas around the input are ignored. *)
Theorem splitKeywords_padding (before input after : jsstring) :
  forallb KeywordShape.isPadding before = true ->
  forallb KeywordShape.isPadding after = true ->
  Keywords.splitKeywords (before ++ input ++ after)
  = Keywords.splitKeywords input.
Proof.
  intros Hbefore Hafter.
  assert (forall s, Keywords.splitKeywords (s ++ after)
                    = Keywords.splitKeywords s) as Htail.
  { clear Hbefore. induction after as [|c pad IH]; intros s.
    - by rewrite app_nil_r.
    - cbn [forallb] in Hafter. apply andb_prop in Hafter as [Hc Hpad].
      replace (s ++ c :: pad) with ((s ++ [c]) ++ pad)
        by (by rewrite <- app_assoc).
      rewrite (IH Hpad). by apply splitKeywords_snoc_padding. }
  induction before as [|c pad IH]; cbn [app].
  - apply Htail.
  - cbn [forallb] in Hbefore. apply andb_prop in Hbefore as [Hc Hpad].
    rewrite splitKeywords_cons_padding by done. by apply IH.
Qed.

Lemma splitKeywords_padding_witness :
  Keywords.splitKeywords (lit " ," ++ lit "cold brew, coffee" ++ [LF; 32%N])
  = Keywords.splitKeywords (lit "cold brew, coffee").
Proof.
  apply (splitKeywords_padding (lit " ,") (lit "cold brew, coffee")
           [LF; 32%N]); reflexivity.
Defined.

(** ** The page as a state machine *)

Section ActionFacts.

Import Actions.

Variable number : Type.
Variable StringToNumber : jsstring -> number.
Variable ofZ : Z -> number.
Variable numberIsTruthy : number -> bool.
Variable engine : VideoBrief.t number -> engineOutcome.

Local Abbreviation apply_edit :=
  (applyEdit number StringToNumber ofZ numberIsTruthy).
Local Abbreviation run_page :=
  (run number StringToNumber ofZ numberIsTruthy engine).
Local Abbreviation step_page :=
  (step number StringToNumber ofZ numberIsTruthy engine).

Lemma run_app st (xs ys : list action) :
  run_page st (xs ++ ys) = run_page (run_page st xs) ys.
Proof. apply fold_left_app. Qed.

Lemma run_cons st a (actions : list action) :
  run_page st (a :: actions) = run_page (step_page st a) actions.
Proof. reflexivity. Qed.

(** Edits alone move the form and nothing else. *)
Lemma run_edits st (edits : list edit) :
  run_page st (map Edit edits)
  = {| Page.form :=
         fold_left (fun form e => apply_edit e form) edits
           (Page.form number st);
       Page.blueprint := Page.blueprint number st;
       Page.isThinking := Page.isThinking number st |}.
Proof.
  revert st. induction edits as [|e edits IH]; intros st.
  - by destruct st.
  - cbn [map]. rewrite run_cons, IH. reflexivity.
Qed.

(** What one submit leaves. *)
Lemma step_submit st :
  step_page st Submit
  = {| Page.form := Page.form number st;
       Page.blueprint :=
         match engine (Page.generateArgument number (Page.form number st))
         with
         | Returns plan => Some plan
         | Throws _ => Page.blueprint number st
         end;
       Page.isThinking := false |}.
Proof.
  cbn [step]. unfold handleGenerateTry. cbn [Page.form Page.blueprint].
  by destruct (engine _).
Qed.

Lemma run_flag st (actions : list action) :
  Page.isThinking number st = false ->
  Page.isThinking number (run_page st actions) = false.
Proof.
  revert st. induction actions as [|a actions IH]; intros st Hst; [done|].
  rewrite run_cons. apply IH. destruct a as [e|]; [done|].
  by rewrite step_submit.
Qed.

Lemma run_form st (actions : list action) :
  Page.form number (run_page st actions)
  = fold_left
      (fun form a =>
         match a with Edit e => apply_edit e form | Submit => form end)
      actions (Page.form number st).
Proof.
  revert st. induction actions as [|a actions IH]; intros st; [done|].
  rewrite run_cons, IH. cbn [fold_left]. destruct a as [e|]; [done|].
  by rewrite step_submit.
Qed.

(** A blueprint is stored when one was stored at the start or some submit
    met an engine that returned. *)
Lemma run_blueprint_some st (actions : list action) :
  is_Some (Page.blueprint number (run_page st actions))
  <-> is_Some (Page.blueprint number st)
      \/ exists before after plan,
           actions = before ++ Submit :: after
           /\ engine (Page.generateArgument number
                        (Page.form number (run_page st before)))
              = Returns plan.
Proof.
  revert st. induction actions as [|a actions IH]; intros st.
  - split; [by left|]. intros [H|(before & after & plan & H & _)]; [done|].
    by destruct before.
  - rewrite run_cons, IH. split.
    + intros [Hst|(before & after & plan & -> & Hplan)].
      * destruct a as [e|]; [by left|].
        rewrite step_submit in Hst. cbn [Page.blueprint] in Hst.
        destruct (engine _) as [plan|reason] eqn:E; [|by left].
        right. by exists [], actions, plan.
      * right. by exists (a :: before), after, plan.
    + intros [Hst|(before & after & plan & Heq & Hplan)].
      * left. destruct a as [e|]; [done|].
        rewrite step_submit. cbn [Page.blueprint].
        by destruct (engine _).
      * destruct before as [|b before]; cbn [app] in Heq.
        -- injection Heq as -> ->. left.
           rewrite step_submit. cbn [Page.blueprint].
           change (run_page st []) with st in Hplan. by rewrite Hplan.
        -- injection Heq as -> ->. right. by exists before, after, plan.
Qed.

End ActionFacts.

(** X8.  The [onChange] handler of each of the six inputs replaces the field
    of its input by the value of the event (the minutes input by its
    number, 9 for the empty string) and leaves the other five fields as
    they were.  Hence edits of two different inputs commute, and of two
    edits of the same input the later one wins. *)
Theorem edits_commute_or_override
    (number : Type) (StringToNumber : jsstring -> number)
    (ofZ : Z -> number) (numberIsTruthy : number -> bool)
    (e1 e2 : Actions.edit) (form : Page.FormState number) :
  let edit := Actions.applyEdit number StringToNumber ofZ numberIsTruthy in
  let v := Actions.targetValue e1 in
  (Page.topic number (edit e1 form)
   = match Actions.target e1 with
     | Actions.Topic => v
     | _ => Page.topic number form
     end
   /\ Page.minutes number (edit e1 form)
      = match Actions.target e1 with
        | Actions.Minutes =>
            match v with [] => ofZ 9%Z | _ :: _ => StringToNumber v end
        | _ => Page.minutes number form
        end
   /\ Page.tone number (edit e1 form)
      = match Actions.target e1 with
        | Actions.Tone => v
        | _ => Page.tone number form
        end
   /\ Page.audience number (edit e1 form)
      = match Actions.target e1 with
        | Actions.Audience => v
        | _ => Page.audience number form
        end
   /\ Page.callToAction number (edit e1 form)
      = match Actions.target e1 with
        | Actions.CallToAction => v
        | _ => Page.callToAction number form
        end
   /\ Page.keywords number (edit e1 form)
      = match Actions.target e1 with
        | Actions.KeywordsField => v
        | _ => Page.keywords number form
        end)
  /\ (Actions.target e1 <> Actions.target e2 ->
      edit e1 (edit e2 form) = edit e2 (edit e1 form))
  /\ (Actions.target e1 = Actions.target e2 ->
      edit e1 (edit e2 form) = edit e1 form).
Proof.
  destruct e1 as [t1 v1], e2 as [t2 v2].
  cbn [Actions.target Actions.targetValue]. cbv zeta. split; [|split].
  - destruct t1; repeat split; try reflexivity.
    cbn. unfold Page.logicalOr. cbn. by destruct v1.
  - intros H; destruct t1, t2; try done; reflexivity.
  - intros H; destruct t1, t2; try done; reflexivity.
Qed.

Lemma edits_commute_or_override_witness :
  let edit :=
    Actions.applyEdit (option Z) Sample.wholeNumber Some
      Sample.wholeNumberIsTruthy in
  edit (Actions.mkEdit Actions.Minutes (lit "12"))
    (edit (Actions.mkEdit Actions.Topic (lit "cold brew")) Sample.defaultForm)
  = edit (Actions.mkEdit Actions.Topic (lit "cold brew"))
      (edit (Actions.mkEdit Actions.Minutes (lit "12")) Sample.defaultForm).
Proof.
  apply (proj1 (proj2 (edits_commute_or_override (option Z)
                         Sample.wholeNumber Some Sample.wholeNumberIsTruthy
                         (Actions.mkEdit Actions.Minutes (lit "12"))
                         (Actions.mkEdit Actions.Topic (lit "cold brew"))
                         Sample.defaultForm))).
  discriminate.
Defined.

(** X9.  The blueprint on display is what the last submit left: the
    engine's plan for the form as it stood at that submit when the engine
    returned, and the blueprint stored before it when the engine threw.
    Edits made since then change the form but neither the blueprint nor
    the thinking flag, and without any submit the blueprint stays what it
    was. *)
Theorem blueprint_follows_last_submit
    (number : Type) (StringToNumber : jsstring -> number)
    (ofZ : Z -> number) (numberIsTruthy : number -> bool)
    (engine : VideoBrief.t number -> Actions.engineOutcome)
    (st : Page.PageState number)
    (before : list Actions.action) (edits : list Actions.edit) :
  let run := Actions.run number StringToNumber ofZ numberIsTruthy engine in
  let submitted := Page.form number (run st before) in
  let st' := run st (before ++ Actions.Submit :: map Actions.Edit edits) in
  Page.blueprint number st'
    = match engine (Page.generateArgument number submitted) with
      | Actions.Returns plan => Some plan
      | Actions.Throws _ => Page.blueprint number (run st before)
      end
  /\ Page.isThinking number st' = false
  /\ Page.form number st'
     = fold_left
         (fun form e =>
            Actions.applyEdit number StringToNumber ofZ numberIsTruthy e form)
         edits submitted
  /\ Page.blueprint number (run st (map Actions.Edit edits))
     = Page.blueprint number st.
Proof.
  cbv zeta. rewrite run_app, run_cons, step_submit, !run_edits.
  cbn [Page.blueprint Page.isThinking Page.form].
  repeat split; reflexivity.
Qed.

(** X10.  A submit never changes the form, whether the engine returns or
    throws: after any sequence of actions the form is the initial form
    with the edits applied in order.  And no action raises the thinking
    flag for good: from a state with the flag down, every sequence of
    actions ends with the flag down. *)
Theorem submits_leave_form_and_flag
    (number : Type) (StringToNumber : jsstring -> number)
    (ofZ : Z -> number) (numberIsTruthy : number -> bool)
    (engine : VideoBrief.t number -> Actions.engineOutcome)
    (st : Page.PageState number) (actions : list Actions.action) :
  let st' :=
    Actions.run number StringToNumber ofZ numberIsTruthy engine st actions in
  Page.form number st'
    = fold_left
        (fun form a =>
           match a with
           | Actions.Edit e =>
               Actions.applyEdit number StringToNumber ofZ numberIsTruthy
                 e form
           | Actions.Submit => form
           end)
        actions (Page.form number st)
  /\ (Page.isThinking number st = false ->
      Page.isThinking number st' = false).
Proof. split; [apply run_form|apply run_flag]. Qed.

Lemma submits_leave_form_and_flag_witness :
  Page.isThinking (option Z)
    (Actions.run (option Z) Sample.wholeNumber Some
       Sample.wholeNumberIsTruthy Scenario.flakyEngine
       (Page.initialState (option Z) Some)
       [Actions.Edit (Actions.mkEdit Actions.Minutes (lit "12"));
        Actions.Submit;
        Actions.Edit (Actions.mkEdit Actions.KeywordsField (lit " , "));
        Actions.Submit])
  = false.
Proof.
  apply (proj2 (submits_leave_form_and_flag (option Z) Sample.wholeNumber
                  Some Sample.wholeNumberIsTruthy Scenario.flakyEngine
                  (Page.initialState (option Z) Some) _)).
  reflexivity.
Defined.

(** X11.  Whatever the engine does, [handleGenerate] ends with the thinking
    flag down and the form as it was.  When the engine returns, the plan is
    stored, as in the model with a total engine; when it throws, the error
    leaves the handler and the blueprint shown before stays. *)
Theorem handleGenerate_finally
    (number : Type)
    (engine : VideoBrief.t number -> Actions.engineOutcome)
    (st : Page.PageState number) :
  let result := Actions.handleGenerateTry number engine st in
  let st' := result.2 in
  Page.isThinking number st' = false
  /\ Page.form number st' = Page.form number st
  /\ match engine (Page.generateArgument number (Page.form number st)) with
     | Actions.Returns plan =>
         result.1 = None
         /\ st' = Page.handleGenerate number (fun _ => plan) st
     | Actions.Throws reason =>
         result.1 = Some reason
         /\ Page.blueprint number st' = Page.blueprint number st
     end.
Proof.
  cbv zeta. unfold Actions.handleGenerateTry. cbn [Page.form].
  destruct (engine _); cbn; repeat split; reflexivity.
Qed.

(** ** The duration total, the clipboard and the download *)

Section EffectFacts.

Import Engine.

Lemma sumZ_Permutation (l l' : list Z) : l ≡ₚ l' -> sumZ l = sumZ l'.
Proof.
  induction 1 as [|x l l' _ IH|x y l|l l' l'' _ IH1 _ IH2].
  - reflexivity.
  - by rewrite !sumZ_cons, IH.
  - rewrite !sumZ_cons. lia.
  - by rewrite IH1.
Qed.

Lemma map_Permutation {A B} (f : A -> B) (l l' : list A) :
  l ≡ₚ l' -> map f l ≡ₚ map f l'.
Proof. intros H. by apply (fmap_Permutation f). Qed.

Lemma accumulators_bounds (acc : Z) (outline : list OutlineSection.t) :
  (0 <= acc)%Z ->
  Forall (fun s => (0 <= OutlineSection.estimatedDuration s)%Z) outline ->
  (acc + sumZ (map OutlineSection.estimatedDuration outline)
   <= Totals.MAX_SAFE_INTEGER)%Z ->
  Forall (fun a => (0 <= a <= Totals.MAX_SAFE_INTEGER)%Z)
         (Totals.accumulators acc outline).
Proof.
  intros Hacc Hpos. revert acc Hacc.
  induction Hpos as [|s outline Hs Hpos IH]; intros acc Hacc Hmax;
    cbn [Totals.accumulators map] in *.
  - unfold sumZ in Hmax. simpl in Hmax. constructor; [lia|constructor].
  - rewrite sumZ_cons in Hmax.
    assert (0 <= sumZ (map OutlineSection.estimatedDuration outline))%Z.
    { clear -Hpos. induction Hpos as [|s' l Hs' _ IH']; [done|].
      cbn [map]. rewrite sumZ_cons. lia. }
    constructor; [lia|]. apply IH; lia.
Qed.

Lemma accumulators_last (acc : Z) (outline : list OutlineSection.t) :
  last (Totals.accumulators acc outline)
  = Some (fold_left
            (fun acc section =>
               (acc + OutlineSection.estimatedDuration section)%Z)
            outline acc).
Proof.
  revert acc. induction outline as [|s outline IH]; intros acc; [done|].
  cbn [Totals.accumulators fold_left]. rewrite <- IH.
  by destruct outline.
Qed.

Lemma filter_differs (node : nat) (l : list nat) :
  node ∉ l -> List.filter (fun n => negb (n =? node)%nat) l = l.
Proof.
  induction l as [|n l IH]; intros Hnotin; cbn [List.filter]; [done|].
  apply not_elem_of_cons in Hnotin as [Hne Hnotin].
  destruct (Nat.eqb_spec n node) as [->|_]; [done|].
  cbn [negb]. by rewrite IH.
Qed.

Lemma filter_drops_last (node : nat) (l : list nat) :
  node ∉ l ->
  List.filter (fun n => negb (n =? node)%nat) (l ++ [node]) = l.
Proof.
  intros Hnotin. rewrite List.filter_app, filter_differs by done.
  cbn [List.filter]. rewrite Nat.eqb_refl. apply app_nil_r.
Qed.

Lemma existsb_last (node : nat) (l : list nat) :
  existsb (fun n => (n =? node)%nat) (l ++ [node]) = true.
Proof.
  rewrite existsb_app. cbn [existsb]. rewrite Nat.eqb_refl.
  by rewrite orb_true_r.
Qed.

End EffectFacts.

(** X12.  For an outline of non-negative durations whose total stays within
    the safe integers, every addition of the reduce is exact, the walk ends
    in the total, and the total does not depend on the order of the
    sections: a blueprint with the same sections in another order shows the
    same total, computed exactly as well. *)
Theorem outlineDurationTotal_reorder (bp bp' : VideoBlueprint.t) :
  VideoBlueprint.outline bp ≡ₚ VideoBlueprint.outline bp' ->
  Forall (fun s => (0 <= OutlineSection.estimatedDuration s)%Z)
         (VideoBlueprint.outline bp) ->
  (Page.outlineDurationTotal (Some bp) <= Totals.MAX_SAFE_INTEGER)%Z ->
  Totals.exact (VideoBlueprint.outline bp)
  /\ Totals.exact (VideoBlueprint.outline bp')
  /\ last (Totals.accumulators 0 (VideoBlueprint.outline bp'))
     = Some (Page.outlineDurationTotal (Some bp'))
  /\ Page.outlineDurationTotal (Some bp)
     = Page.outlineDurationTotal (Some bp').
Proof.
  intros Hperm Hpos Hmax.
  assert (Page.outlineDurationTotal (Some bp)
          = Page.outlineDurationTotal (Some bp')) as Heq.
  { unfold Page.outlineDurationTotal. rewrite !fold_left_durations. f_equal.
    apply sumZ_Permutation, map_Permutation, Hperm. }
  assert (Forall (fun s => (0 <= OutlineSection.estimatedDuration s)%Z)
            (VideoBlueprint.outline bp')) as Hpos'.
  { by rewrite <- Hperm. }
  split; [|split; [|split]]; [| | |exact Heq].
  - apply accumulators_bounds; [done|done|].
    unfold Page.outlineDurationTotal in Hmax.
    by rewrite fold_left_durations in Hmax.
  - apply accumulators_bounds; [done|done|].
    rewrite Heq in Hmax. unfold Page.outlineDurationTotal in Hmax.
    by rewrite fold_left_durations in Hmax.
  - unfold Page.outlineDurationTotal. apply accumulators_last.
Qed.

Lemma outlineDurationTotal_reorder_witness :
  Page.outlineDurationTotal
    (Some (Scenario.twoSections Scenario.hookSection Scenario.longSection))
  = Page.outlineDurationTotal
      (Some (Scenario.twoSections Scenario.longSection
               Scenario.hookSection)).
Proof.
  apply (outlineDurationTotal_reorder
           (Scenario.twoSections Scenario.hookSection Scenario.longSection)
           (Scenario.twoSections Scenario.longSection
              Scenario.hookSection)).
  - apply perm_swap.
  - repeat constructor; vm_compute; discriminate.
  - vm_compute. discriminate.
Defined.


(** The download helper on an arbitrary page. *)
Lemma downloadFile_restores (w : Download.browser)
    (fileName contents : jsstring) :
  exists w',
    Download.downloadFile fileName contents w = Some w'
    /\ Download.downloads w'
       = Download.downloads w
         ++ [(fileName, Download.mkBlob contents Download.TEXT_PLAIN)]
    /\ Download.bodyChildren w' = Download.bodyChildren w
    /\ Download.blobUrls w' = Download.blobUrls w.
Proof.
  unfold Download.downloadFile, Download.createObjectURL,
    Download.createElement.
  cbv zeta beta iota.
  set (url := fresh (dom (Download.blobUrls w))).
  cbn [Download.elements Download.bodyChildren].
  set (link := fresh (dom (Download.elements w)
                      ∪ list_to_set (Download.bodyChildren w))).
  assert (Download.blobUrls w !! url = None) as Hurl.
  { apply not_elem_of_dom. apply is_fresh. }
  assert (link ∉ Download.bodyChildren w) as Hlink.
  { intros Hin.
    apply (is_fresh (dom (Download.elements w)
                     ∪ list_to_set (Download.bodyChildren w))).
    apply elem_of_union. right. by apply elem_of_list_to_set. }
  unfold Download.removeChild, Download.click, Download.appendChild,
    Download.setDownload, Download.setHref.
  cbn [Download.elements Download.bodyChildren Download.blobUrls
         Download.downloads].
  rewrite !lookup_alter_eq, lookup_insert_eq.
  cbn [fmap option_fmap option_map Download.href Download.download].
  rewrite lookup_insert_eq.
  cbn [Download.elements Download.bodyChildren Download.blobUrls
         Download.downloads].
  rewrite (filter_differs link) by done.
  rewrite existsb_last, filter_drops_last by done.
  eexists. split; [reflexivity|].
  unfold Download.revokeObjectURL.
  cbn [Download.elements Download.bodyChildren Download.blobUrls
         Download.downloads].
  repeat split. by apply delete_insert_id.
Qed.

(** X14.  [downloadFile] completes on every page, starts exactly one
    download, of the given contents as UTF-8 plain text under the given
    file name, and cleans up after itself: the children of the document
    body and the live blob URLs are afterwards what they were before. *)
Theorem downloadFile_downloads_and_cleans_up
    (fileName contents : jsstring) (w : Download.browser) :
  exists w',
    Download.downloadFile fileName contents w = Some w'
    /\ Download.downloads w'
       = Download.downloads w
         ++ [(fileName, Download.mkBlob contents Download.TEXT_PLAIN)]
    /\ Download.bodyChildren w' = Download.bodyChildren w
    /\ Download.blobUrls w' = Download.blobUrls w.
Proof. apply downloadFile_restores. Qed.

(** ** More on the plain-text export *)

Section ExportLines.

Import TextExport.

Lemma line_split (a a' r r' : jsstring) :
  LF ∉ a -> LF ∉ a' -> a ++ LF :: r = a' ++ LF :: r' -> a = a' /\ r = r'.
Proof.
  revert a'. induction a as [|c a IH]; intros [|c' a'] Ha Ha' Heq;
    cbn [app] in Heq.
  - by injection Heq as ->.
  - injection Heq as <- _. destruct Ha'. left.
  - injection Heq as -> _. destruct Ha. left.
  - injection Heq as -> Heq.
    apply not_elem_of_cons in Ha as [_ Ha], Ha' as [_ Ha'].
    destruct (IH a' Ha Ha' Heq) as [-> ->]. done.
Qed.

Lemma literal_line (prefix field : jsstring) :
  forallb (fun c => negb (c =? LF)%N) prefix = true ->
  LF ∉ field -> LF ∉ prefix ++ field.
Proof.
  intros Hprefix Hfield [Hin|Hin]%elem_of_app; [|done].
  rewrite forallb_forall in Hprefix.
  apply list_elem_of_In, Hprefix in Hin.
  by rewrite N.eqb_refl in Hin.
Qed.

Lemma header_line (topic : jsstring) :
  LF ∉ topic ->
  LF ∉ lit "YouTube Blueprint " ++ EM_DASH :: lit " " ++ topic.
Proof.
  intros Htopic. apply literal_line; [reflexivity|].
  apply not_elem_of_cons. split; [done|].
  by apply literal_line.
Qed.

End ExportLines.

(** X15.  Each script section of the export is a run of lines: its numbered
    heading, the voice-over, a blank line, the prompt heading, one bullet
    per visual prompt, the engagement line and a closing line feed.  A
    section without visual prompts still gets one, empty, bullet. *)
Theorem scriptSection_lines (index : nat) (section : ScriptSection.t) :
  TextExport.scriptSection index section
  = join TextExport.NL (ScriptLines.scriptSectionLines index section).
Proof.
  unfold ScriptLines.scriptSectionLines, TextExport.scriptSection. cbv zeta.
  destruct (ScriptSection.visualPrompts section) as [|p ps].
  - cbn [map app]. rewrite !join_cons. cbn [join].
    unfold TextExport.bulletLine. rewrite <- !app_assoc. reflexivity.
  - assert (forall rest,
              lit "- " ++ join (TextExport.NL ++ lit "- ") (p :: ps) ++ rest
              = join TextExport.NL (map TextExport.bulletLine (p :: ps))
                  ++ rest) as Hbullets.
    { intros rest. by rewrite app_assoc, bullets_join. }
    set (bullets := map TextExport.bulletLine (p :: ps)) in *.
    assert (bullets <> []) as Hne by done.
    cbn [app]. rewrite !join_cons.
    change (lit "Visual Prompts:" :: bullets ++ ?tail)
      with ([lit "Visual Prompts:"] ++ bullets ++ tail).
    rewrite !join_app by (done || by destruct bullets).
    rewrite join_cons. cbn [join]. rewrite <- !app_assoc.
    rewrite Hbullets. reflexivity.
Qed.

(** X16.  The head of the export identifies the brief: two blueprints with
    the same export text have the same topic, audience and tone, provided
    none of these six texts contains a line feed. *)
Theorem export_identifies_brief (bp bp' : VideoBlueprint.t) :
  LF ∉ VideoBlueprint.topic bp -> LF ∉ VideoBlueprint.topic bp' ->
  LF ∉ VideoBlueprint.targetAudience bp ->
  LF ∉ VideoBlueprint.targetAudience bp' ->
  LF ∉ VideoBlueprint.tone bp -> LF ∉ VideoBlueprint.tone bp' ->
  TextExport.formatBlueprintText bp = TextExport.formatBlueprintText bp' ->
  VideoBlueprint.topic bp = VideoBlueprint.topic bp'
  /\ VideoBlueprint.targetAudience bp = VideoBlueprint.targetAudience bp'
  /\ VideoBlueprint.tone bp = VideoBlueprint.tone bp'.
Proof.
  intros Ht Ht' Ha Ha' Hto Hto' Heq.
  unfold TextExport.formatBlueprintText, TextExport.formatBlueprintLines
    in Heq.
  cbv zeta in Heq. cbn [app] in Heq.
  rewrite !(join_cons TextExport.NL) in Heq.
  change TextExport.NL with [LF] in Heq. cbn [app] in Heq.
  apply line_split in Heq as [Htopic Heq];
    [|by apply header_line|by apply header_line].
  apply app_inv_head in Htopic. apply (app_inv_head [EM_DASH]) in Htopic.
  apply app_inv_head in Htopic.
  apply (app_inv_head [LF]) in Heq.
  apply line_split in Heq as [Haud Heq];
    [|by apply literal_line|by apply literal_line].
  apply line_split in Heq as [Htone _];
    [|by apply literal_line|by apply literal_line].
  apply app_inv_head in Haud, Htone. done.
Qed.

Lemma export_identifies_brief_witness :
  VideoBlueprint.topic Sample.coldBrewBlueprint
  = VideoBlueprint.topic Sample.coldBrewBlueprintVariant
  /\ VideoBlueprint.targetAudience Sample.coldBrewBlueprint
     = VideoBlueprint.targetAudience Sample.coldBrewBlueprintVariant
  /\ VideoBlueprint.tone Sample.coldBrewBlueprint
     = VideoBlueprint.tone Sample.coldBrewBlueprintVariant.
Proof.
  apply (export_identifies_brief Sample.coldBrewBlueprint
           Sample.coldBrewBlueprintVariant);
    apply (bool_decide_unpack _); vm_compute; exact I.
Defined.

(** X17.  The export button and the copy button deliver the same text: on
    every page the click on the export button downloads the formatted
    blueprint as youtube-blueprint.txt, and with a clipboard in place the
    click on the copy button attempts exactly one write, of that same
    text. *)
Theorem export_and_copy_agree
    (bp : VideoBlueprint.t) (w : Download.browser)
    (env : Clipboard.environment)
    (writeText : jsstring -> Clipboard.completion Clipboard.promise) :
  Clipboard.navigator env
  = Some (Clipboard.ClipboardObject (Some writeText)) ->
  exists w',
    Download.onExportClick bp w = Some w'
    /\ Download.downloads w'
       = Download.downloads w
         ++ [(lit "youtube-blueprint.txt",
              Download.mkBlob (TextExport.formatBlueprintText bp)
                Download.TEXT_PLAIN)]
    /\ (Buttons.onCopyClick bp env).2 = [TextExport.formatBlueprintText bp].
Proof.
  intros Henv.
  destruct (downloadFile_restores w (lit "youtube-blueprint.txt")
              (TextExport.formatBlueprintText bp))
    as (w' & Hw' & Hdown & _).
  exists w'. split; [exact Hw'|]. split; [exact Hdown|].
  unfold Buttons.onCopyClick, Clipboard.copyToClipboard. rewrite Henv.
  by destruct (writeText _).
Qed.

Lemma export_and_copy_agree_witness :
  (Buttons.onCopyClick Sample.coldBrewBlueprint Sample.workingClipboard).2
  = [TextExport.formatBlueprintText Sample.coldBrewBlueprint].
Proof.
  destruct (export_and_copy_agree Sample.coldBrewBlueprint
              Scenario.busyBrowser Sample.workingClipboard
              (fun _ => Clipboard.Return Clipboard.Resolves) eq_refl)
    as (w' & _ & _ & Hcopy).
  exact Hcopy.
Defined.

(** ** What the user sees *)

(** X18.  Starting from the initial page, the export and copy buttons and
    the result cards are on the page exactly when some submit met an engine
    call that returned (a submit whose engine call throws stores nothing);
    and whenever the page is at rest the submit button is enabled and
    carries its idle label. *)
Theorem export_offered_after_submit
    (number : Type) (StringToNumber : jsstring -> number)
    (ofZ : Z -> number) (numberIsTruthy : number -> bool)
    (engine : VideoBrief.t number -> Actions.engineOutcome)
    (actions : list Actions.action) :
  let run := Actions.run number StringToNumber ofZ numberIsTruthy engine in
  let st := run (Page.initialState number ofZ) actions in
  (View.exportOffered number st = true <->
   exists before after plan,
     actions = before ++ Actions.Submit :: after
     /\ engine (Page.generateArgument number
                  (Page.form number
                     (run (Page.initialState number ofZ) before)))
        = Actions.Returns plan)
  /\ View.submitDisabled number st = false
  /\ View.submitLabel number st = lit "Generate Blueprint".
Proof.
  cbv zeta.
  pose proof (run_blueprint_some number StringToNumber ofZ numberIsTruthy
                engine (Page.initialState number ofZ) actions) as Hsome.
  pose proof (run_flag number StringToNumber ofZ numberIsTruthy engine
                (Page.initialState number ofZ) actions eq_refl) as Hflag.
  unfold View.exportOffered, View.submitDisabled, View.submitLabel.
  rewrite Hflag. split; [|done].
  destruct (Page.blueprint number _) as [bp|].
  - split; [intros _|done].
    destruct (proj1 Hsome ltac:(by eexists)) as [[? H]|H]; [done|exact H].
  - split; [done|]. intros Hsubmit.
    destruct (proj2 Hsome (or_intror Hsubmit)) as [? H]. discriminate.
Qed.

(** After a submit without keywords the flaky engine has thrown and nothing
    is offered; after a submit with the default keywords the buttons are
    there. *)
Example export_offered_examples :
  let run :=
    Actions.run (option Z) Sample.wholeNumber Some
      Sample.wholeNumberIsTruthy Scenario.flakyEngine
      (Page.initialState (option Z) Some) in
  View.exportOffered (option Z)
    (run [Actions.Edit (Actions.mkEdit Actions.KeywordsField (lit " , "));
          Actions.Submit]) = false
  /\ View.exportOffered (option Z) (run [Actions.Submit]) = true.
Proof. split; reflexivity. Qed.
